(** * ChatGPT conversations to Markdown: a verification development

    Shallow embedding of the two scripts of the repository,

    - [chatgpt_json_to_markdown.py]   (module [Extractor] below), and
    - [obsidian_chatgpt_organizer.py] (modules [Organizer] and
      [Summaries] below),

    together with the Python string primitives they rely on (module [Py])
    and the JSON values they read (module [Json]).  The vocabulary of the
    statements is in [Props], the inputs of the examples in [Sample]; the
    proofs follow, one module per component.

    Modelling conventions.
    - A Python [str] is a list of code points.  What Python takes from
      the Unicode database ([str.lower], [str.isspace], [str.isalnum])
      is a field of the class [Unicode], with the facts about it that
      the proofs use; on ASCII the three are the tables written out
      here.  [str.lower] works on the whole string and may change its
      length.
    - Indices are [Z], with Python's treatment of negative indices in
      [find], [rfind] and slices written out, and [-1] for "not found".
    - A JSON number is a rational, NaN or an infinity, as [json.load]
      returns them.
    - A Python exception is an explicit error result; the calls into
      [datetime], [dateutil], [list.sort] on keys without a common order
      and NLTK are fields of the classes [Platform] and [Nltk]; writing
      the file is not modelled beyond the name and the content handed to
      [open]. *)

From Stdlib Require Import List Ascii String ZArith NArith QArith Lia Bool.
From Stdlib Require Import Arith Qround Sorted Permutation DecimalString.
Import ListNotations.

Local Open Scope Z_scope.

(* ================================================================= *)
(** ** Python string primitives *)

Module Py.

(** A character is its code point. *)
Definition char := N.

Definition text := list char.

Definition ch (a : ascii) : char := N_of_ascii a.

Definition str (s : string) : text := map ch (list_ascii_of_string s).

Definition nl : char := 10%N.

Definition len (s : text) : Z := Z.of_nat (List.length s).

(** *** The ASCII tables *)

Definition is_ascii (c : char) : bool := (c <? 128)%N.

Definition ascii_lower (c : char) : char :=
  if ((65 <=? c) && (c <=? 90))%N%bool then (c + 32)%N else c.

(** TAB, LF, VT, FF, CR, FS, GS, RS, US and the space. *)
Definition ascii_space (c : char) : bool :=
  (((9 <=? c) && (c <=? 13)) || ((28 <=? c) && (c <=? 32)))%N%bool.

Definition ascii_alnum (c : char) : bool :=
  (((48 <=? c) && (c <=? 57)) || ((65 <=? c) && (c <=? 90))
   || ((97 <=? c) && (c <=? 122)))%N%bool.

(** What Python reads from the Unicode database. *)
Class Unicode : Type := {
  (** [s.lower()] *)
  lower : text -> text;
  (** [c.isspace()], also the white space of [strip], [split] and of
      [\s] in a pattern *)
  is_space : char -> bool;
  (** [c.isalnum()] *)
  is_alnum_char : char -> bool;
  lower_ascii :
    forall s, forallb is_ascii s = true -> lower s = map ascii_lower s;
  is_space_ascii :
    forall c, is_ascii c = true -> is_space c = ascii_space c;
  is_alnum_ascii :
    forall c, is_ascii c = true -> is_alnum_char c = ascii_alnum c;
  alnum_not_space :
    forall c, is_alnum_char c = true -> is_space c = false
}.

Fixpoint text_eqb (a b : text) : bool :=
  match a, b with
  | [], [] => true
  | x :: a', y :: b' => (N.eqb x y && text_eqb a' b')%bool
  | _, _ => false
  end.

(** [s.startswith(sub)] *)
Fixpoint starts_with (sub s : text) : bool :=
  match sub, s with
  | [], _ => true
  | _ :: _, [] => false
  | x :: sub', y :: s' => (N.eqb x y && starts_with sub' s')%bool
  end.

(** Index of the first occurrence of [sub] in [s]. *)
Fixpoint find_nat (sub s : text) : option nat :=
  if starts_with sub s then Some 0%nat
  else match s with
       | [] => None
       | _ :: s' => option_map S (find_nat sub s')
       end.

(** Index of the last occurrence of [sub] in [s]. *)
Fixpoint rfind_nat (sub s : text) : option nat :=
  match s with
  | [] => if starts_with sub [] then Some 0%nat else None
  | _ :: s' =>
      match rfind_nat sub s' with
      | Some j => Some (S j)
      | None => if starts_with sub s then Some 0%nat else None
      end
  end.

(** [sub in s] *)
Definition contains (sub s : text) : bool :=
  match find_nat sub s with Some _ => true | None => false end.

(** Python's adjustment of a slice bound against a length [n]. *)
Definition adjust (i n : Z) : Z :=
  if i <? 0 then Z.max 0 (i + n) else Z.min i n.

(** [s[a:b]] *)
Definition slice (s : text) (a b : Z) : text :=
  let a' := adjust a (len s) in
  let b' := adjust b (len s) in
  firstn (Z.to_nat (b' - a')) (skipn (Z.to_nat a') s).

(** [s[a:]] *)
Definition slice_from (s : text) (a : Z) : text :=
  skipn (Z.to_nat (adjust a (len s))) s.

(** [s[:b]] *)
Definition slice_to (s : text) (b : Z) : text :=
  firstn (Z.to_nat (adjust b (len s))) s.

(** [s.find(sub, start)] *)
Definition find (s sub : text) (start : Z) : Z :=
  let n := len s in
  let a := if start <? 0 then Z.max 0 (start + n) else start in
  if n <? a then -1
  else match find_nat sub (skipn (Z.to_nat a) s) with
       | Some j => a + Z.of_nat j
       | None => -1
       end.

(** [s.rfind(sub, 0, stop)] *)
Definition rfind0 (s sub : text) (stop : Z) : Z :=
  let b := adjust stop (len s) in
  match rfind_nat sub (firstn (Z.to_nat b) s) with
  | Some j => Z.of_nat j
  | None => -1
  end.

(** [sep.join(l)] *)
Fixpoint join (sep : text) (l : list text) : text :=
  match l with
  | [] => []
  | [x] => x
  | x :: l' => x ++ sep ++ join sep l'
  end.

(** [re.split] on a literal, non-empty separator: the chunks between the
    leftmost non-overlapping occurrences.  [skip] counts the characters of
    a matched separator that are still to be passed over. *)
Fixpoint split_aux (sep s : text) (skip : nat) (acc : text) : list text :=
  match s with
  | [] => [rev acc]
  | c :: s' =>
      match skip with
      | S k => split_aux sep s' k acc
      | O =>
          if starts_with sep s
          then rev acc :: split_aux sep s' (List.length sep - 1) []
          else split_aux sep s' 0 (c :: acc)
      end
  end.

Definition split_lit (sep s : text) : list text := split_aux sep s 0 [].

Section WithUnicode.
Context {U : Unicode}.

Fixpoint lstrip (s : text) : text :=
  match s with
  | [] => []
  | c :: s' => if is_space c then lstrip s' else s
  end.

Definition rstrip (s : text) : text := rev (lstrip (rev s)).

(** [s.strip()] *)
Definition strip (s : text) : text := rstrip (lstrip s).

(** Truth value of [s.strip()]. *)
Definition nonblank (s : text) : bool := negb (forallb is_space s).

(** [s.isalnum()]: every character alphanumeric, and at least one. *)
Definition isalnum (s : text) : bool :=
  match s with
  | [] => false
  | _ :: _ => forallb is_alnum_char s
  end.

End WithUnicode.

End Py.

(* ================================================================= *)
(** ** obsidian_chatgpt_organizer.py : the Segmenter *)

Module Organizer.
Import Py.

Definition TOPIC_TRANSITION_PHRASES : list text :=
  map str
    [ "now let's switch to"%string;
      "moving on to"%string;
      "let's change the subject"%string;
      "on a different topic"%string;
      "switching gears"%string;
      "let's talk about something else"%string;
      "changing the subject"%string;
      "new topic:"%string;
      "regarding your other question"%string;
      "to address your next point"%string;
      "on another note"%string ].

(** The pattern [\n\n\*\*] of [re.split], also the literal given to
    [rfind]. *)
Definition turn_marker : text := [nl; nl; ch "*"; ch "*"].

Section WithUnicode.
Context {U : Unicode}.

(** The inner [for phrase in TOPIC_TRANSITION_PHRASES: ... break]:
    the offset of the first listed phrase that occurs in the chunk. *)
Fixpoint first_phrase (phrases : list text) (message_lower : text)
  : option Z :=
  match phrases with
  | [] => None
  | phrase :: rest =>
      if contains phrase message_lower
      then Some (find message_lower phrase 0)
      else first_phrase rest message_lower
  end.

(** The loop of [detect_topic_transitions] over [enumerate(messages)];
    [first] is [i == 0], [current_index] is the running search offset. *)
Fixpoint scan_messages (content : text) (messages : list text)
         (first : bool) (current_index : Z) : list Z :=
  match messages with
  | [] => []
  | message :: rest =>
      let message_lower := lower message in
      let here :=
        if first then []
        else match first_phrase TOPIC_TRANSITION_PHRASES message_lower with
             | Some off => [find content message current_index + off]
             | None => []
             end in
      let current_index' :=
        find content message current_index + len message in
      here ++ scan_messages content rest false current_index'
  end.

Definition detect_topic_transitions (content : text) : list Z :=
  scan_messages content (split_lit turn_marker content) true 0.

(** The loop [for pos in transitions] of [split_content_by_topics],
    followed by the final [parts.append(content[start:])]. *)
Fixpoint cut_parts (content : text) (start : Z) (transitions : list Z)
  : list text :=
  match transitions with
  | [] => [slice_from content start]
  | pos :: rest =>
      let message_start :=
        let r := rfind0 content turn_marker pos in
        if r =? -1 then 0 else r in
      slice content start message_start
        :: cut_parts content message_start rest
  end.

(** The list [parts] before the final comprehension. *)
Definition topic_parts (content : text) : list text :=
  cut_parts content 0 (detect_topic_transitions content).

Definition split_content_by_topics (content : text) : list text :=
  match detect_topic_transitions content with
  | [] => [content]
  | _ :: _ => filter nonblank (topic_parts content)
  end.

End WithUnicode.

(** *** The Tagger *)

(** What the Tagger takes from NLTK. *)
Class Nltk : Type := {
  (** [word_tokenize] *)
  word_tokenize : text -> list text;
  (** [stopwords.words('english')] *)
  stopwords : list text
}.

Definition TOPIC_KEYWORDS : list (text * list text) :=
  map (fun kv => (str (fst kv), map str (snd kv)))
  [ ("python", ["python"; "django"; "flask"; "pandas"; "numpy";
                "matplotlib"; "tensorflow"; "pytorch"]);
    ("javascript", ["javascript"; "js"; "node"; "react"; "vue"; "angular";
                    "typescript"; "npm"]);
    ("startup", ["startup"; "founder"; "venture"; "pitch";
                 "entrepreneurship"; "business model"; "mvp"]);
    ("marketing", ["marketing"; "seo"; "advertising"; "customer"; "brand";
                   "social media"; "content"]);
    ("vc", ["vc"; "venture capital"; "investor"; "funding"; "series a";
            "angel"; "term sheet"]);
    ("ai", ["ai"; "artificial intelligence"; "machine learning"; "ml";
            "deep learning"; "llm"; "neural"]);
    ("data", ["data"; "database"; "sql"; "nosql"; "analytics";
              "visualization"; "dashboard"]);
    ("web", ["web"; "html"; "css"; "frontend"; "backend"; "fullstack";
             "responsive"]);
    ("mobile", ["mobile"; "ios"; "android"; "app"; "swift"; "kotlin";
                "react native"]);
    ("cloud", ["cloud"; "aws"; "azure"; "gcp"; "serverless"; "docker";
               "kubernetes"]);
    ("security", ["security"; "encryption"; "authentication";
                  "vulnerability"; "firewall"; "cybersecurity"]);
    ("blockchain", ["blockchain"; "crypto"; "bitcoin"; "ethereum"; "nft";
                    "token"; "web3"]);
    ("design", ["design"; "ui"; "ux"; "figma"; "sketch"; "wireframe";
                "prototype"]);
    ("career", ["career"; "resume"; "interview"; "job"; "salary";
                "promotion"; "skills"]);
    ("productivity", ["productivity"; "workflow"; "efficiency";
                      "automation"; "tool"; "process"]);
    ("health", ["health"; "fitness"; "nutrition"; "medical"; "exercise";
                "wellness"; "diet"]);
    ("education", ["education"; "learning"; "course"; "tutorial"; "teach";
                   "student"; "training"]) ]%string.

(** [x in l] for strings. *)
Definition mem (x : text) (l : list text) : bool := existsb (text_eqb x) l.

Section WithUnicode.
Context {U : Unicode}.

(** [len(s.split())]: the number of maximal runs of characters that are
    not white space; [inside] tells whether the scan is within a run. *)
Fixpoint count_words (s : text) (inside : bool) : nat :=
  match s with
  | [] => 0
  | c :: s' =>
      if is_space c then count_words s' false
      else if inside then count_words s' true
           else S (count_words s' true)
  end.

(** [len(keyword.split()) > 1] *)
Definition multi_word (keyword : text) : bool :=
  Nat.ltb 1 (count_words keyword false).

(** [token in keywords or any(keyword in content and
      len(keyword.split()) > 1 for keyword in keywords)] *)
Definition keyword_hit (content token : text) (keywords : list text) : bool :=
  (mem token keywords
   || existsb (fun keyword => contains keyword content && multi_word keyword)
              keywords)%bool.

(** [topic_scores[topic] += 1] *)
Fixpoint bump (topic : text) (scores : list (text * nat))
  : list (text * nat) :=
  match scores with
  | [] => []
  | (t, n) :: rest =>
      if text_eqb topic t then (t, S n) :: rest
      else (t, n) :: bump topic rest
  end.

(** [for topic, keywords in TOPIC_KEYWORDS.items()] for one token. *)
Definition score_token (lexicon : list (text * list text))
           (content : text) (scores : list (text * nat)) (token : text)
  : list (text * nat) :=
  fold_left (fun sc kv =>
               if keyword_hit content token (snd kv) then bump (fst kv) sc
               else sc) lexicon scores.

Context {N : Nltk}.

(** [[w for w in tokens if w.isalnum() and w not in stop_words]] *)
Definition filtered_tokens (content : text) : list text :=
  filter (fun w => isalnum w && negb (mem w stopwords))%bool
         (word_tokenize content).

(** [extract_tags_from_content] over a lexicon. *)
Definition tags_for (lexicon : list (text * list text)) (content0 : text)
  : list text :=
  let content := lower content0 in
  let topic_scores := map (fun kv => (fst kv, 0%nat)) lexicon in
  let topic_scores :=
    fold_left (score_token lexicon content) (filtered_tokens content)
              topic_scores in
  let relevant_topics :=
    map fst (filter (fun ts => Nat.ltb 1 (snd ts)) topic_scores) in
  str "chatgpt" :: relevant_topics.

Definition extract_tags_from_content (content : text) : list text :=
  tags_for TOPIC_KEYWORDS content.

End WithUnicode.

End Organizer.


(* ================================================================= *)
(** ** JSON values, as [json.load] returns them *)

Module Json.
Import Py.

(** A number: an [int] or a finite [float] is the rational it denotes;
    [json.load] also returns [NaN] and the two infinities. *)
Inductive number : Type :=
| Finite (q : Q)
| NaN
| Infinity (negative : bool).

(** [x > 0] *)
Definition is_positive (x : number) : bool :=
  match x with
  | Finite q => if Qlt_le_dec 0 q then true else false
  | NaN => false
  | Infinity negative => negb negative
  end.

(** [x <= 0] *)
Definition is_nonpositive (x : number) : bool :=
  match x with
  | Finite q => if Qlt_le_dec 0 q then false else true
  | NaN => false
  | Infinity negative => negative
  end.

Set Warnings "-register-all".

(** A [dict] is kept as the list of its items in insertion order. *)
Inductive json : Type :=
| JNull
| JBool (b : bool)
| JNum (x : number)
| JStr (s : text)
| JArr (l : list json)
| JObj (items : list (text * json)).

(** [bool(v)] *)
Definition truthy (v : json) : bool :=
  match v with
  | JNull => false
  | JBool b => b
  | JNum (Finite q) => negb (Qeq_bool q 0)
  | JNum _ => true
  | JStr s => match s with [] => false | _ => true end
  | JArr l => match l with [] => false | _ => true end
  | JObj kv => match kv with [] => false | _ => true end
  end.

(** The value of [v] when [isinstance(v, (int, float))]; [bool] is a
    subclass of [int] in Python. *)
Definition as_number (v : json) : option number :=
  match v with
  | JNum x => Some x
  | JBool b => Some (Finite (if b then 1%Q else 0%Q))
  | _ => None
  end.

(** [isinstance(v, (int, float)) and v > 0] *)
Definition positive_number (v : json) : option number :=
  match as_number v with
  | Some x => if is_positive x then Some x else None
  | None => None
  end.

Definition is_dict (v : json) : bool :=
  match v with JObj _ => true | _ => false end.

(** [d.get(k)] on the items of a dict. *)
Fixpoint lookup (k : text) (items : list (text * json)) : option json :=
  match items with
  | [] => None
  | (k', v) :: rest => if text_eqb k k' then Some v else lookup k rest
  end.

(** [k in d] *)
Definition has_key (k : text) (items : list (text * json)) : bool :=
  match lookup k items with Some _ => true | None => false end.

(** [d.get(k, default)] *)
Definition get_default (k : text) (items : list (text * json))
           (default : json) : json :=
  match lookup k items with Some v => v | None => default end.

(** [d[k] = v]: the value is replaced where the key stands, a new key
    goes last. *)
Fixpoint set_item (k : text) (v : json) (items : list (text * json))
  : list (text * json) :=
  match items with
  | [] => [(k, v)]
  | (k', v') :: rest =>
      if text_eqb k k' then (k, v) :: rest
      else (k', v') :: set_item k v rest
  end.

End Json.

(* ================================================================= *)
(** ** chatgpt_json_to_markdown.py *)

Module Extractor.
Import Py Json.

(** A raised exception, or a value. *)
Inductive result (A : Type) : Type :=
| Ok (a : A)
| Raise.
Arguments Ok {A} a.
Arguments Raise {A}.

(** What [dateutil.parser.parse(s).timestamp()] does: a timestamp, an
    [ImportError] or [ValueError], which the script catches, or another
    exception ([OverflowError]), which it does not. *)
Inductive parsed : Type :=
| Parsed (t : Q)
| Rejected
| Failed.

(** What the script takes from the Python runtime and its libraries. *)
Class Platform : Type := {
  (** [datetime] objects *)
  datetime : Type;
  (** [datetime.fromtimestamp(t)]; [None] when it raises. *)
  fromtimestamp : number -> option datetime;
  (** [dt.year] *)
  year : datetime -> Z;
  (** [dt.strftime(fmt)]; [None] when it raises [ValueError]. *)
  strftime : datetime -> text -> option text;
  (** [dateutil.parser.parse(s).timestamp()] *)
  parse_date : text -> parsed;
  (** [str(v)] for a value that is not a [str]. *)
  repr : json -> text;
  (** [l.sort(key=...)] for two elements or more whose keys, given
      first, have no common order (a NaN, a list or a [dict] among
      them, or numbers mixed with strings): it raises [TypeError] or
      leaves the elements in some order. *)
  sort_unordered : list json -> list json -> result (list json);
  sort_unordered_perm :
    forall keys l l', sort_unordered keys l = Ok l' -> Permutation l l'
}.

Definition bind {A B : Type} (r : result A) (f : A -> result B)
  : result B :=
  match r with Ok a => f a | Raise => Raise end.

Notation "'do' x <- r ; k" := (bind r (fun x => k))
  (at level 10, x name, r at level 100, k at level 200).

Section WithPlatform.
Context {U : Unicode} {P : Platform}.

(** [str(v)] *)
Definition py_str (v : json) : text :=
  match v with JStr s => s | _ => repr v end.

(** [for x in v]: the items a [for] loop sees, or [TypeError]. *)
Definition iterate (v : json) : result (list json) :=
  match v with
  | JArr l => Ok l
  | JStr s => Ok (map (fun c => JStr [c]) s)
  | JObj items => Ok (map (fun kv => JStr (fst kv)) items)
  | _ => Raise
  end.

(** The strings of a list given to [str.join], or [TypeError]. *)
Fixpoint all_strings (l : list json) : result (list text) :=
  match l with
  | [] => Ok []
  | JStr s :: rest => do r <- all_strings rest; Ok (s :: r)
  | _ :: _ => Raise
  end.

(** ["\n".join(l)] for strings [l]. *)
Definition join_lines (l : list text) : text := join [nl] l.

(** One element of the generator over [parts]. *)
Definition part_text (part : json) : json :=
  match part with
  | JObj items =>
      match lookup (str "text") items with
      | Some v => v
      | None => JStr (py_str part)
      end
  | _ => JStr (py_str part)
  end.

(** The [for field in ["text", "value", "body"]] of a message with no
    ["content"]. *)
Fixpoint first_field (fields : list text) (items : list (text * json))
  : text :=
  match fields with
  | [] => []
  | f :: rest =>
      match lookup f items with
      | Some v => py_str v
      | None => first_field rest items
      end
  end.

(** The [isinstance(content, dict)] branch. *)
Definition dict_content (c : list (text * json)) : result json :=
  match lookup (str "parts") c with
  | Some parts =>
      do ps <- iterate parts;
      do ss <- all_strings (map part_text (filter truthy ps));
      Ok (JStr (join_lines ss))
  | None =>
  match lookup (str "text") c with
  | Some v => Ok v
  | None =>
  match lookup (str "result") c with
  | Some v => Ok v
  | None =>
  match lookup (str "content_type") c with
  | Some ct =>
      match ct with
      | JStr s =>
          if text_eqb s (str "user_editable_context")
          then Ok (get_default (str "user_profile") c
                     (JStr (str "Context information (no details available)")))
          else Ok (JStr (str "Content of type: " ++ py_str ct))
      | _ => Ok (JStr (str "Content of type: " ++ py_str ct))
      end
  | None =>
      let text_fields :=
        flat_map (fun kv => match snd kv with
                            | JStr (c0 :: v) => [c0 :: v]
                            | _ => []
                            end) c in
      match text_fields with
      | [] => Ok (JStr (str "[Message content in unknown format]"))
      | _ => Ok (JStr (join_lines text_fields))
      end
  end end end end.

(** The body of the [try] of [_get_message_content]. *)
Definition message_content_body (message : json) : result json :=
  match message with
  | JObj items =>
      match items with
      | [] => Ok (JStr [])
      | _ =>
        match lookup (str "content") items with
        | None =>
            Ok (JStr (first_field [str "text"; str "value"; str "body"] items))
        | Some content =>
            match content with
            | JStr s => Ok (JStr s)
            | JObj c => dict_content c
            | JArr l =>
                Ok (JStr (join_lines (map py_str (filter truthy l))))
            | _ => Ok (JStr (py_str content))
            end
        end
      end
  | _ => Ok (JStr [])
  end.

Definition content_error : text := str "[Content extraction error]".

(** [_get_message_content]: the [except Exception] returns the
    placeholder. *)
Definition _get_message_content (message : json) : json :=
  match message_content_body message with
  | Ok v => v
  | Raise => JStr content_error
  end.

(** [get_create_time_safely], for a message that is a [dict]; the loop
    over the alternative field names.  An exception of the parser other
    than the two that are caught leaves the function. *)
Fixpoint alternative_time (fields : list text) (items : list (text * json))
  : result (option number) :=
  match fields with
  | [] => Ok None
  | f :: rest =>
      match lookup f items with
      | None => alternative_time rest items
      | Some value =>
          match positive_number value with
          | Some x => Ok (Some x)
          | None =>
              match value with
              | JStr s =>
                  match parse_date s with
                  | Parsed t => Ok (Some (Finite t))
                  | Rejected => alternative_time rest items
                  | Failed => Raise
                  end
              | _ => alternative_time rest items
              end
          end
      end
  end.

Definition time_fields : list text :=
  [str "timestamp"; str "time"; str "created_at"; str "date"].

Definition get_create_time_safely (message : json)
  : result (option number) :=
  match message with
  | JObj items =>
      match lookup (str "create_time") items with
      | Some value =>
          match positive_number value with
          | Some x => Ok (Some x)
          | None => alternative_time time_fields items
          end
      | None => alternative_time time_fields items
      end
  | _ => Ok None
  end.

(** [get_author_role_safely] *)
Definition get_author_role_safely (message : json) : json :=
  match message with
  | JObj items =>
      match lookup (str "author") items with
      | Some (JObj author) =>
          get_default (str "role") author (JStr (str "unknown"))
      | _ => get_default (str "role") items (JStr (str "unknown"))
      end
  | _ => JStr (str "unknown")
  end.

(** [content.split('\n')[0]] *)
Fixpoint first_line (s : text) : text :=
  match s with
  | [] => []
  | c :: s' => if N.eqb c nl then [] else c :: first_line s'
  end.

Definition untitled : text := str "Untitled Conversation".

(** [_get_title(title, first_message)].  [title.strip()] and
    [content.split] raise [AttributeError] on a value that is not a
    [str]. *)
Definition _get_title (title first_message : json) : result text :=
  let inferred :=
    if (truthy first_message && is_dict first_message)%bool then
      let content := _get_message_content first_message in
      if truthy content then
        match content with
        | JStr s =>
            let line := firstn 50 (first_line s) in
            Ok (if 3 <? len line then line else untitled)
        | _ => Raise
        end
      else Ok untitled
    else Ok untitled in
  if truthy title then
    match title with
    | JStr s => if nonblank s then Ok s else inferred
    | _ => Raise
    end
  else inferred.

(** *** Sorting the messages *)

(** The key of [messages.sort]: [x.get("create_time", 0) or 0]. *)
Definition sort_key (message : json) : json :=
  match message with
  | JObj items =>
      let v := get_default (str "create_time") items (JNum (Finite 0)) in
      if truthy v then v else JNum (Finite 0)
  | _ => JNum (Finite 0)
  end.

(** The keys with a total order: numbers other than NaN among
    themselves, strings among themselves. *)
Inductive skey : Type :=
| KNegInf
| KNum (q : Q)
| KPosInf
| KStr (s : text).

Definition ordered_key (v : json) : option skey :=
  match v with
  | JNum (Finite q) => Some (KNum q)
  | JNum (Infinity negative) => Some (if negative then KNegInf else KPosInf)
  | JNum NaN => None
  | JBool b => Some (KNum (if b then 1%Q else 0%Q))
  | JStr s => Some (KStr s)
  | _ => None
  end.

(** [s <= t] on strings: by code point, a prefix first. *)
Fixpoint text_leb (s t : text) : bool :=
  match s, t with
  | [], _ => true
  | _ :: _, [] => false
  | a :: s', b :: t' =>
      if N.eqb a b then text_leb s' t' else N.ltb a b
  end.

Definition skey_leb (a b : skey) : bool :=
  match a, b with
  | KNegInf, _ => true
  | _, KNegInf => false
  | KNum x, KNum y => Qle_bool x y
  | KNum _, _ => true
  | KPosInf, KNum _ => false
  | KPosInf, _ => true
  | KStr s, KStr t => text_leb s t
  | KStr _, _ => false
  end.

Definition same_kind (a b : skey) : bool :=
  match a, b with
  | KStr _, KStr _ => true
  | KStr _, _ => false
  | _, KStr _ => false
  | _, _ => true
  end.

Definition rank (message : json) : skey :=
  match ordered_key (sort_key message) with
  | Some k => k
  | None => KNum 0
  end.

(** Whether the keys of [l] share a total order with the key of [m]. *)
Definition comparable_with (m : json) (l : list json) : bool :=
  match ordered_key (sort_key m) with
  | None => false
  | Some k =>
      forallb (fun x => match ordered_key (sort_key x) with
                        | Some k' => same_kind k k'
                        | None => false
                        end) l
  end.

(** A stable sort: an element goes before the first element whose key is
    not below its own, so it stays ahead of later elements with an equal
    key. *)
Fixpoint insert_by (x : json) (l : list json) : list json :=
  match l with
  | [] => [x]
  | y :: l' =>
      if skey_leb (rank x) (rank y) then x :: l
      else y :: insert_by x l'
  end.

Fixpoint stable_sort (l : list json) : list json :=
  match l with
  | [] => []
  | x :: l' => insert_by x (stable_sort l')
  end.

(** [messages.sort(key=lambda x: x.get("create_time", 0) or 0)]: with
    fewer than two messages nothing is compared; keys with a common
    total order are sorted, stably; the rest is the runtime's. *)
Definition sort_messages (messages : list json) : result (list json) :=
  match messages with
  | [] => Ok messages
  | [_] => Ok messages
  | m :: _ :: _ =>
      if comparable_with m messages then Ok (stable_sort messages)
      else sort_unordered (map sort_key messages) messages
  end.

(** *** Message discovery *)

(** The loop over [mapping.items()] of [extract_messages_safely]. *)
Definition mapping_messages (mapping : list (text * json)) : list json :=
  flat_map (fun kv =>
              match snd kv with
              | JObj item =>
                  match lookup (str "message") item with
                  | Some message => if truthy message then [message] else []
                  | None => []
                  end
              | _ => []
              end) mapping.

(** [extract_messages_safely].  [mapping.items()] on a truthy value that
    is not a [dict] raises [AttributeError], and so does iterating a
    [messages] value that cannot be iterated. *)
Definition extract_messages_safely (entry : json) : result (list json) :=
  match entry with
  | JObj items =>
      match lookup (str "mapping") items with
      | Some mapping =>
          if truthy mapping then
            match mapping with
            | JObj m => Ok (mapping_messages m)
            | _ => Raise
            end
          else Ok []
      | None =>
          match lookup (str "messages") items with
          | Some messages =>
              do l <- iterate messages; Ok (filter truthy l)
          | None => Ok []
          end
      end
  | _ => Ok []
  end.

(** *** process_conversations *)

Record config : Type := {
  user_name : text;
  assistant_name : text;
  date_format : text;
  message_separator : text;
  skip_empty_messages : bool;
  filter_before_year : Z;
  enable_summarization : bool
}.

Inductive skip_reason : Type :=
| NotADict        (* "expected dict but got ..." *)
| TooOld          (* [skipped_old += 1] *)
| NoMapping       (* "no mapping data" *)
| NoMessages      (* "no messages" *)
| Insufficient    (* "insufficient content" *)
| Raised.         (* the [except Exception] of the loop body *)

(** What one iteration of the loop does with its entry. *)
Inductive outcome : Type :=
| Written (file_name content : text)
| Skipped (why : skip_reason).

(** [entry.get("create_time")], a string replaced by what the date
    parser makes of it; an exception of the parser that is not caught
    ends the iteration. *)
Definition conversation_create_time (entry : list (text * json))
  : result json :=
  match lookup (str "create_time") entry with
  | None => Ok JNull
  | Some (JStr s) =>
      match parse_date s with
      | Parsed t => Ok (JNum (Finite t))
      | Rejected => Ok JNull
      | Failed => Raise
      end
  | Some v => Ok v
  end.

(** [t and isinstance(t, (int, float)) and t > 0] *)
Definition valid_time (t : json) : option number :=
  if truthy t then positive_number t else None.

Definition unknown_author : json :=
  JObj [(str "role", JStr (str "unknown"))].

(** The loop over [mapping.items()] of [process_conversations], with the
    assignment to [message["author"]]. *)
Definition collect_messages (mapping : list (text * json)) : list json :=
  flat_map (fun kv =>
              match snd kv with
              | JObj item =>
                  match lookup (str "message") item with
                  | Some (JObj message) =>
                      match lookup (str "author") message with
                      | Some (JObj _) => [JObj message]
                      | _ =>
                          [JObj (set_item (str "author") unknown_author
                                          message)]
                      end
                  | _ => []
                  end
              | _ => []
              end) mapping.

(** [create_time = conversation_create_time], replaced by the time of the
    first message [if not create_time or create_time <= 0]; the
    comparison raises [TypeError] on a list or a [dict]. *)
Definition choose_create_time (conversation_time : json)
           (message_create_time : option number)
  : result (option number) :=
  if truthy conversation_time then
    match as_number conversation_time with
    | Some x => if is_nonpositive x then Ok message_create_time
                else Ok (Some x)
    | None => Raise
    end
  else Ok message_create_time.

(** [t and isinstance(t, (int, float)) and t > 0] on the chosen time. *)
Definition usable_time (t : option number) : option number :=
  match t with
  | Some x => if is_positive x then Some x else None
  | None => None
  end.

(** *** Rendering *)

Definition keeps_char (c : char) : bool :=
  (is_alnum_char c || N.eqb c (ch " ") || N.eqb c (ch "_")
   || N.eqb c (ch "-"))%bool.

(** [''.join(c for c in title if c.isalnum() or c in [' ', '_', '-'])
      .rstrip()] *)
Definition sanitize (title : text) : text := rstrip (filter keeps_char title).

(** [s.replace(' ', '_')] *)
Definition underscores (s : text) : text :=
  map (fun c => if N.eqb c (ch " ") then ch "_" else c) s.

Definition file_name_of (date_str inferred_title : text) : text :=
  match date_str with
  | [] => underscores (sanitize inferred_title) ++ str ".md"
  | _ => date_str ++ str "_" ++ underscores (sanitize inferred_title)
           ++ str ".md"
  end.

Definition header_of (cfg : config) (date_str inferred_title : text) : text :=
  match date_str with
  | [] => str "# " ++ inferred_title ++ message_separator cfg
  | _ => str "# " ++ date_str ++ str " " ++ inferred_title
           ++ message_separator cfg
  end.

Definition id_line (cfg : config) (conversation_id : json) : text :=
  str "<sub>Conversation ID: " ++ py_str conversation_id ++ str "</sub>"
    ++ message_separator cfg.

(** The body of the [try] inside [for message in messages]. *)
Definition message_line (cfg : config) (message : json) : result text :=
  do author_role <-
     match message with
     | JObj items =>
         match lookup (str "author") items with
         | None => Ok (JStr (str "unknown"))
         | Some (JObj author) =>
             Ok (get_default (str "role") author (JStr (str "unknown")))
         | Some _ => Raise
         end
     | _ => Raise
     end;
  let msg_content := _get_message_content message in
  do keep <-
     (if skip_empty_messages cfg then
        match msg_content with
        | JStr s => Ok (nonblank s)
        | _ => Raise
        end
      else Ok true);
  if keep then
    let author_name :=
      match author_role with
      | JStr r => if text_eqb r (str "user") then user_name cfg
                  else assistant_name cfg
      | _ => assistant_name cfg
      end in
    Ok (str "**" ++ author_name ++ str "**: " ++ py_str msg_content
          ++ message_separator cfg)
  else Ok [].

(** [for message in messages]: a message whose body raises adds
    nothing. *)
Fixpoint message_lines (cfg : config) (messages : list json) : text :=
  match messages with
  | [] => []
  | m :: rest =>
      match message_line cfg m with
      | Ok line => line ++ message_lines cfg rest
      | Raise => message_lines cfg rest
      end
  end.

(** The document, from the title line to the last message. *)
Definition render (cfg : config) (conversation_id : json)
           (dt : option datetime) (date_str inferred_title : text)
           (messages : list json) : result text :=
  do creation <-
     match dt with
     | Some d =>
         match strftime d (str "%Y-%m-%d %H:%M:%S") with
         | Some formatted_date =>
             Ok (str "<sub>Creation time: " ++ formatted_date
                   ++ str "</sub>" ++ message_separator cfg)
         | None => Raise
         end
     | None => Ok []
     end;
  let summary :=
    if enable_summarization cfg
    then str "**Summary:** [Not implemented yet]" ++ message_separator cfg
    else [] in
  Ok (header_of cfg date_str inferred_title ++ id_line cfg conversation_id
        ++ creation ++ summary ++ message_lines cfg messages).

(** The guard before the file is written. *)
Definition write_guard (file_name content : text) : outcome :=
  if len (strip content) <? 10 then Skipped Insufficient
  else Written file_name content.

(** The part of the loop body after the messages are sorted. *)
Definition finish_entry (cfg : config) (title conversation_id : json)
           (conversation_time : json) (messages : list json) : outcome :=
  match match messages with
        | m :: _ => get_create_time_safely m
        | [] => Ok None
        end with
  | Raise => Skipped Raised
  | Ok message_create_time =>
  match choose_create_time conversation_time message_create_time with
  | Raise => Skipped Raised
  | Ok create_time =>
      let continue (dt : option datetime) :=
        match _get_title title (hd JNull messages) with
        | Raise => Skipped Raised
        | Ok inferred_title =>
            let date_str :=
              match dt with
              | Some d =>
                  match strftime d (date_format cfg) with
                  | Some s => s
                  | None => []
                  end
              | None => []
              end in
            match render cfg conversation_id dt date_str inferred_title
                         messages with
            | Raise => Skipped Raised
            | Ok content =>
                write_guard (file_name_of date_str inferred_title) content
            end
        end in
      match usable_time create_time with
      | Some t =>
          match fromtimestamp t with
          | None => Skipped Raised
          | Some d =>
              if year d <? filter_before_year cfg then Skipped TooOld
              else continue (Some d)
          end
      | None => continue None
      end
  end end.

(** One iteration of [for entry in data]. *)
Definition process_entry (cfg : config) (entry : json) : outcome :=
  match entry with
  | JObj items =>
      let title := get_default (str "title") items (JStr []) in
      let mapping := get_default (str "mapping") items (JObj []) in
      let conversation_id :=
        get_default (str "id") items (JStr (str "unknown")) in
      match conversation_create_time items with
      | Raise => Skipped Raised
      | Ok conversation_time =>
      let rest (_ : unit) :=
        if truthy mapping then
          match mapping with
          | JObj m =>
              match collect_messages m with
              | [] => Skipped NoMessages
              | messages =>
                  match sort_messages messages with
                  | Raise => Skipped Raised
                  | Ok sorted =>
                      finish_entry cfg title conversation_id
                                   conversation_time sorted
                  end
              end
          | _ => Skipped Raised
          end
        else Skipped NoMapping in
      match valid_time conversation_time with
      | Some t =>
          match fromtimestamp t with
          | None => Skipped Raised
          | Some d =>
              if year d <? filter_before_year cfg then Skipped TooOld
              else rest tt
          end
      | None => rest tt
      end
      end
  | _ => Skipped NotADict
  end.

(** The files written for [data], in order. *)
Definition written_files (cfg : config) (data : list json)
  : list (text * text) :=
  flat_map (fun entry => match process_entry cfg entry with
                         | Written f c => [(f, c)]
                         | Skipped _ => []
                         end) data.

(** [process_conversations]: the pair [(processed, skipped)] it
    returns. *)
Definition process_conversations (cfg : config) (data : list json)
  : nat * nat :=
  fold_left (fun counts entry =>
               match process_entry cfg entry with
               | Written _ _ => (S (fst counts), snd counts)
               | Skipped TooOld => counts
               | Skipped _ => (fst counts, S (snd counts))
               end) data (0%nat, 0%nat).

End WithPlatform.
End Extractor.

(* ================================================================= *)
(** ** obsidian_chatgpt_organizer.py : summaries and file names *)

Module Summaries.
Import Py.

(** The longest prefix of [s] whose characters satisfy [p], and the
    rest. *)
Fixpoint span (p : char -> bool) (s : text) : text * text :=
  match s with
  | [] => ([], [])
  | c :: s' =>
      if p c then let (a, b) := span p s' in (c :: a, b)
      else ([], s)
  end.

Definition not_star (c : char) : bool := negb (N.eqb c (ch "*")).

Definition has_newline (s : text) : bool := existsb (N.eqb nl) s.

(** [s.split('\n', 1)[0]] *)
Fixpoint up_to_newline (s : text) : text :=
  match s with
  | [] => []
  | c :: s' => if N.eqb c nl then [] else c :: up_to_newline s'
  end.

(** A match of [\*\*[^*]+\*\*:] at the head of [s]: what follows the
    colon.  The class [[^*]+] can only stop where the stars begin, so it
    takes the whole run of characters that are not stars. *)
Definition author_tag (s : text) : option text :=
  if starts_with (str "**") s then
    let (run, s2) := span not_star (skipn 2 s) in
    match run with
    | [] => None
    | _ :: _ =>
        if starts_with (str "**:") s2 then Some (skipn 3 s2) else None
    end
  else None.

Section WithUnicode.
Context {U : Unicode}.

(** A match of [\s*(.*?)\n] at the head of [t]: its group.  The greedy
    [\s*] first takes the whole run of white space, line ends included;
    the lazy group then runs to the next line end.  With no line end
    left, [\s*] gives characters back until it stands before the last
    line end of the run, and the group is empty. *)
Definition query_group (t : text) : option text :=
  let (ws, u) := span is_space t in
  if has_newline u then Some (up_to_newline u)
  else if has_newline ws then Some []
  else None.

(** [re.search(r'\*\*[^*]+\*\*:\s*(.*?)\n', content)]: the group of the
    leftmost match. *)
Fixpoint search_query (s : text) : option text :=
  match match author_tag s with
        | Some t => query_group t
        | None => None
        end with
  | Some g => Some g
  | None =>
      match s with
      | [] => None
      | _ :: s' => search_query s'
      end
  end.

(** [s[:max_length] + ('...' if len(s) > max_length else '')] *)
Definition truncate (max_length : Z) (s : text) : text :=
  slice_to s max_length ++ (if max_length <? len s then str "..." else []).

(** [re.sub(r'^\*\*[^*]+\*\*:\s*', '', first_line)] *)
Definition strip_author_tag (first_line : text) : text :=
  match author_tag first_line with
  | Some t => lstrip t
  | None => first_line
  end.

Definition default_summary : text := str "ChatGPT Conversation".

(** [generate_summary(content, max_length)] *)
Definition generate_summary (content : text) (max_length : Z) : text :=
  match search_query content with
  | Some g => truncate max_length (strip g)
  | None =>
      let first_line := strip (up_to_newline content) in
      match first_line with
      | [] => default_summary
      | _ :: _ =>
          let first_line :=
            if starts_with (str "**") first_line
            then strip_author_tag first_line
            else first_line in
          truncate max_length first_line
      end
  end.

(** *** The file name of a part, in [process_markdown_file] *)

Definition lower_alnum (c : char) : bool :=
  (((48 <=? c) && (c <=? 57)) || ((97 <=? c) && (c <=? 122)))%N%bool.

(** [re.findall(r'[a-z0-9]+', s)]: the maximal runs; [cur] is the run
    being read, last character first. *)
Fixpoint findall_runs (s : text) (cur : text) : list text :=
  match s with
  | [] => match cur with [] => [] | _ :: _ => [rev cur] end
  | c :: s' =>
      if lower_alnum c then findall_runs s' (c :: cur)
      else match cur with
           | [] => findall_runs s' []
           | _ :: _ => rev cur :: findall_runs s' []
           end
  end.

(** ['-'.join(re.findall(r'[a-z0-9]+', summary.lower())[:5])], replaced
    by a fixed slug when empty. *)
Definition summary_slug (summary : text) : text :=
  match join (str "-") (firstn 5 (findall_runs (lower summary) [])) with
  | [] => str "chatgpt-conversation"
  | slug => slug
  end.

(** The characters that the last [re.sub] removes: the angle brackets,
    the colon, the double quote, both slashes, the bar, the question mark
    and the star. *)
Definition forbidden (c : char) : bool :=
  existsb (N.eqb c)
    [ch "<"; ch ">"; ch ":"; 34%N; ch "/"; 92%N; ch "|"; ch "?"; ch "*"].

(** [str(n)] *)
Definition decimal (n : nat) : text :=
  str (DecimalString.NilEmpty.string_of_uint (Nat.to_uint n)).

(** The name of the file of part [i] (from 0) out of [parts]; [date_str]
    is [date.strftime('%Y-%m-%d')]. *)
Definition new_filename (date_str : text) (tags : list text)
           (summary : text) (i parts : nat) : text :=
  let primary_tag :=
    match tags with
    | _ :: tag :: _ => tag
    | _ => str "chat"
    end in
  let part_suffix :=
    if Nat.ltb 1 parts then str " part " ++ decimal (i + 1) else [] in
  let name := date_str ++ str " - " ++ primary_tag ++ str "-"
                ++ summary_slug summary ++ part_suffix ++ str ".md" in
  slice_to (filter (fun c => negb (forbidden c)) name) 240.

End WithUnicode.

End Summaries.


(* ================================================================= *)
(** ** Vocabulary of the statements *)

Module Props.
Import Py.

(** [sub] occurs in [s] at offset [k]. *)
Definition occurs_at (sub s : text) (k : nat) : Prop :=
  (k <= List.length s)%nat /\ starts_with sub (skipn k s) = true.

(** The cut that [split_content_by_topics] derives from a transition
    offset: the last turn marker that ends at or before it, else 0. *)
Definition message_start (content : text) (pos : Z) : Z :=
  let r := rfind0 content Organizer.turn_marker pos in
  if r =? -1 then 0 else r.

(** A place where the Segmenter cuts: the start of the document or a
    turn marker. *)
Definition cut_point (content : text) (a : Z) : Prop :=
  a = 0 \/ (0 <= a /\ occurs_at Organizer.turn_marker content (Z.to_nat a)).

(** [l] is non-decreasing and starts at or above [lo]. *)
Fixpoint rising (lo : Z) (l : list Z) : Prop :=
  match l with
  | [] => True
  | p :: rest => lo <= p /\ rising p rest
  end.

(** The strings of [l] are pairwise different. *)
Fixpoint distinct (l : list text) : bool :=
  match l with
  | [] => true
  | x :: rest => (negb (Organizer.mem x rest) && distinct rest)%bool
  end.

(** Every score raised by what [g] gives for its topic. *)
Definition add_scores (g : text -> nat) (scores : list (text * nat))
  : list (text * nat) :=
  map (fun kn => (fst kn, (snd kn + g (fst kn))%nat)) scores.

(** How many entries of a lexicon have the key [k] and satisfy [h]. *)
Fixpoint hits (h : text * list text -> bool) (k : text)
         (lexicon : list (text * list text)) : nat :=
  match lexicon with
  | [] => 0
  | kv :: rest =>
      ((if (text_eqb (fst kv) k && h kv)%bool then 1 else 0)
       + hits h k rest)%nat
  end.

(** The sentinel tag. *)
Definition sentinel : text := str "chatgpt".

Section SegmenterVocabulary.
Context {U : Unicode}.

(** Lowercasing does not lengthen any chunk between turn markers of the
    document. *)
Definition lower_keeps_chunks (content : text) : Prop :=
  Forall (fun m => len (lower m) <= len m)
         (split_lit Organizer.turn_marker content).

End SegmenterVocabulary.

(** *** The Tagger, in the words of the specification *)

Section TaggerVocabulary.
Context {U : Unicode}.

(** The keywords of a topic that are a single word. *)
Definition single_word_keywords (keywords : list text) : list text :=
  filter (fun k => negb (Organizer.multi_word k)) keywords.

(** Some multi-word keyword phrase of the topic is a substring of the
    text. *)
Definition phrase_present (content : text) (keywords : list text) : bool :=
  existsb (fun k => Organizer.multi_word k && contains k content)%bool
          keywords.

(** The score of a topic: one for every token that is one of its
    single-word keywords, or one for every token when one of its phrases
    is present. *)
Definition topic_score (content : text) (tokens : list text)
           (keywords : list text) : nat :=
  List.length
    (filter (fun token =>
               (Organizer.mem token (single_word_keywords keywords)
                || phrase_present content keywords)%bool) tokens).

(** The same as [hits], summed over the tokens. *)
Fixpoint total_hits (content : text) (lexicon : list (text * list text))
         (k : text) (tokens : list text) : nat :=
  match tokens with
  | [] => 0
  | token :: rest =>
      (hits (fun kv => Organizer.keyword_hit content token (snd kv)) k
            lexicon
       + total_hits content lexicon k rest)%nat
  end.

End TaggerVocabulary.

(** *** The Extractor *)

Section ExtractorVocabulary.
Import Json Extractor.
Context {U : Unicode} {P : Platform}.










(** The [create_time] of the message is absent, falsy, or a number
    other than NaN. *)
Definition numeric_time (message : json) : Prop :=
  exists items,
    message = JObj items
    /\ match lookup (str "create_time") items with
       | None => True
       | Some v =>
           truthy v = false
           \/ exists x, as_number v = Some x /\ x <> NaN
       end.

(** The [create_time] of the message is a string that is not empty. *)
Definition string_time (message : json) : Prop :=
  exists items s,
    message = JObj items
    /\ lookup (str "create_time") items = Some (JStr s) /\ s <> [].

(** The keys of the sort are all numbers, or all strings. *)
Definition times_comparable (messages : list json) : Prop :=
  Forall numeric_time messages \/ Forall string_time messages.

(** A mapping node whose [message] field is present and not null. *)
Definition has_message (node : json) : bool :=
  match node with
  | JObj item =>
      match lookup (str "message") item with
      | Some JNull => false
      | Some _ => true
      | None => false
      end
  | _ => false
  end.

(** A mapping node whose [message] field is a [dict]. *)
Definition has_dict_message (node : json) : bool :=
  match node with
  | JObj item =>
      match lookup (str "message") item with
      | Some (JObj _) => true
      | _ => false
      end
  | _ => false
  end.

(** A mapping node whose [message] field is truthy. *)
Definition has_truthy_message (node : json) : bool :=
  match node with
  | JObj item =>
      match lookup (str "message") item with
      | Some message => truthy message
      | None => false
      end
  | _ => false
  end.

(** The configuration with another cutoff year. *)
Definition with_filter (cfg : config) (y : Z) : config := {|
  user_name := user_name cfg;
  assistant_name := assistant_name cfg;
  date_format := date_format cfg;
  message_separator := message_separator cfg;
  skip_empty_messages := skip_empty_messages cfg;
  filter_before_year := y;
  enable_summarization := enable_summarization cfg
|}.

(** The characters of the stem of a file name: those that [isalnum]
    accepts, the underscore and the hyphen. *)
Definition name_char (c : char) : bool :=
  (is_alnum_char c || N.eqb c (ch "_") || N.eqb c (ch "-"))%bool.

Definition is_string (v : json) : bool :=
  match v with JStr _ => true | _ => false end.

(** The entries of [data] that are skipped as too old. *)
Definition too_old (cfg : config) (data : list json) : list json :=
  filter (fun entry => match process_entry cfg entry with
                       | Skipped TooOld => true
                       | _ => false
                       end) data.

End ExtractorVocabulary.

End Props.

(* ================================================================= *)
(** ** Sample inputs *)

Module Sample.
Import Py Json Extractor Organizer.

(** *** A fragment of the Unicode tables

    Exact on ASCII and Latin-1, on the white space of the other planes
    and on U+0130, whose lowercase form is the two code points U+0069
    U+0307; any other character is taken as a symbol. *)

Definition sample_lower_char (c : char) : text :=
  if is_ascii c then [ascii_lower c]
  else if (((192 <=? c) && (c <=? 222)) && negb (c =? 215))%N%bool
       then [(c + 32)%N]
  else if (c =? 304)%N then [105%N; 775%N]
  else [c].

Definition sample_lower (s : text) : text := flat_map sample_lower_char s.

Definition sample_is_space (c : char) : bool :=
  if is_ascii c then ascii_space c
  else ((c =? 133) || (c =? 160) || (c =? 5760)
        || ((8192 <=? c) && (c <=? 8202)) || (c =? 8232) || (c =? 8233)
        || (c =? 8239) || (c =? 8287) || (c =? 12288))%N%bool.

Definition sample_is_alnum_char (c : char) : bool :=
  if is_ascii c then ascii_alnum c
  else ((c =? 170) || (c =? 178) || (c =? 179) || (c =? 181) || (c =? 185)
        || (c =? 186) || ((188 <=? c) && (c <=? 190))
        || ((192 <=? c) && (c <=? 214)) || ((216 <=? c) && (c <=? 246))
        || ((248 <=? c) && (c <=? 255)))%N%bool.

#[export] Instance sample_unicode : Unicode.
Proof.
  refine {| lower := sample_lower;
            is_space := sample_is_space;
            is_alnum_char := sample_is_alnum_char |}.
  - intros s; unfold sample_lower.
    induction s as [|c s IH]; simpl; [reflexivity|].
    intros H; apply andb_true_iff in H as [Hc Hs].
    unfold sample_lower_char at 1; rewrite Hc, (IH Hs); reflexivity.
  - intros c Hc; unfold sample_is_space; rewrite Hc; reflexivity.
  - intros c Hc; unfold sample_is_alnum_char; rewrite Hc; reflexivity.
  - intros c; unfold sample_is_alnum_char, sample_is_space, is_ascii,
      ascii_alnum, ascii_space.
    destruct (N.ltb_spec c 128); cbv iota; intros Ha;
      apply not_true_is_false; intros Hs;
      repeat rewrite ?orb_true_iff, ?andb_true_iff, ?N.leb_le, ?N.eqb_eq
        in Ha;
      repeat rewrite ?orb_true_iff, ?andb_true_iff, ?N.leb_le, ?N.eqb_eq
        in Hs;
      lia.
Defined.

(** *** A stand-in for the runtime

    A [datetime] is its timestamp, a year lasts 31556952 seconds,
    [strftime] returns the pattern; no date string parses, and the
    parser fails on the digits [99999999999999999999999999] with an
    exception the script does not catch; keys without a common order
    are not sorted. *)
#[export] Instance sample_platform : Platform := {|
  datetime := Q;
  fromtimestamp := fun x => match x with Finite t => Some t | _ => None end;
  year := fun t => 1970 + Qfloor (t / 31556952);
  strftime := fun _ fmt => Some fmt;
  parse_date := fun s =>
                  if text_eqb s (str "99999999999999999999999999")
                  then Failed else Rejected;
  repr := fun v =>
            match v with
            | JNull => str "None"
            | JBool true => str "True"
            | JBool false => str "False"
            | _ => str "<value>"
            end;
  sort_unordered := fun _ _ => Raise;
  sort_unordered_perm := fun _ _ _ H =>
    match H in (_ = r) return match r with Raise => True | Ok _ => _ end
    with eq_refl => I end
|}.

(** The maximal runs of characters that are not white space. *)
Fixpoint whitespace_words (s : text) (cur : text) : list text :=
  match s with
  | [] => match cur with [] => [] | _ :: _ => [rev cur] end
  | c :: s' =>
      if sample_is_space c
      then match cur with
           | [] => whitespace_words s' []
           | _ :: _ => rev cur :: whitespace_words s' []
           end
      else whitespace_words s' (c :: cur)
  end.

(** A stand-in for NLTK: tokens are the words between white space, and
    three stop words. *)
#[export] Instance sample_nltk : Nltk := {|
  word_tokenize := fun s => whitespace_words s [];
  stopwords := [str "the"; str "a"; str "is"]
|}.

(** *** Records and documents *)

(** The defaults of [main]. *)
Definition default_config : config := {|
  user_name := str "User";
  assistant_name := str "ChatGPT";
  date_format := str "%Y-%m-%d";
  message_separator := [nl; nl];
  skip_empty_messages := true;
  filter_before_year := 2025;
  enable_summarization := false
|}.

Definition items (l : list (string * json)) : list (text * json) :=
  map (fun kv => (str (fst kv), snd kv)) l.

Definition obj (l : list (string * json)) : json := JObj (items l).

Definition jstr (s : string) : json := JStr (str s).

Definition jint (z : Z) : json := JNum (Finite (inject_Z z)).

Definition user_author : json := obj [("role", jstr "user")]%string.

Definition assistant_author : json :=
  obj [("role", jstr "assistant")]%string.

(** [{"title": "t", "messages": [{"author": {"role": "user"},
      "content": "Hello world"}]}] *)
Definition flat_record : json :=
  obj [("title", jstr "t");
       ("messages",
        JArr [obj [("author", user_author);
                   ("content", jstr "Hello world")]])]%string.

(** [{"id": "c1", "title": "", "mapping": {"a": {"message":
      {"author": {"role": "user"}, "content": ""}}}}] *)
Definition empty_turn_record : list (text * json) :=
  items
  [("id", jstr "c1"); ("title", jstr "");
   ("mapping",
    obj [("a", obj [("message",
                     obj [("author", user_author);
                          ("content", jstr "")])])])]%string.

(** [{"author": {"role": "user"}, "content": "later", "timestamp": 5}] *)
Definition turn_later : json :=
  obj [("author", user_author); ("content", jstr "later");
       ("timestamp", jint 5)]%string.

(** [{"author": {"role": "user"}, "content": "earlier",
      "create_time": 3}] *)
Definition turn_earlier : json :=
  obj [("author", user_author); ("content", jstr "earlier");
       ("create_time", jint 3)]%string.

(** [{"author": {"role": "user"}, "content": "Hello world\nmore"}] *)
Definition greeting_content : text :=
  str "Hello world" ++ nl :: str "more".

Definition turn_greeting : json :=
  obj [("author", user_author);
       ("content", JStr greeting_content)]%string.


(** A mapping with one message that is a [dict] and one that is a
    string. *)
Definition stray_message_mapping : list (text * json) :=
  items
  [("a", obj [("message", obj [("author", user_author);
                               ("content", jstr "Hello world")])]);
   ("b", obj [("message", jstr "stray")])]%string.




(** [{"id": "c2", "title": "Notes", "mapping": {"a": {"message":
      {"author": {"role": "user"}, "content": "Hello world"}}}}] *)
Definition undated_record : list (text * json) :=
  items
  [("id", jstr "c2"); ("title", jstr "Notes");
   ("mapping",
    obj [("a", obj [("message",
                     obj [("author", user_author);
                          ("content", jstr "Hello world")])])])]%string.



Definition dotted_content : text :=
  repeat 304%N 45 ++ str " moving on to x".

(** A record of three Turns; the first holds 45 times the letter
    U+0130 before the words "moving on to", the second the words
    "new topic:". *)
Definition dotted_record : list (text * json) :=
  items
  [("id", jstr "c"); ("title", jstr "T");
   ("mapping",
    obj [("a", obj [("message",
                     obj [("author", user_author);
                          ("content", JStr dotted_content)])]);
         ("b", obj [("message",
                     obj [("author", assistant_author);
                          ("content", jstr "new topic: y")])]);
         ("c", obj [("message",
                     obj [("author", user_author);
                          ("content", jstr "z")])])])]%string.

(** The document that the Renderer writes for [dotted_record]. *)
Definition dotted_document : text :=
  str "# T" ++ [nl; nl] ++ str "<sub>Conversation ID: c</sub>"
    ++ [nl; nl] ++ str "**User**: " ++ repeat 304%N 45
    ++ str " moving on to x" ++ [nl; nl]
    ++ str "**ChatGPT**: new topic: y" ++ [nl; nl]
    ++ str "**User**: z" ++ [nl; nl].

End Sample.

(* ================================================================= *)
(** ** Facts about the string primitives *)

Module PyFacts.
Import Py Props.

Lemma text_eqb_eq (a b : text) : text_eqb a b = true <-> a = b.
Proof.
  revert b; induction a as [|x a IH]; intros [|y b]; simpl;
    try (split; [discriminate | discriminate]); try tauto.
  rewrite andb_true_iff, N.eqb_eq, IH.
  split; [intros [-> ->]; reflexivity | intros H; inversion H; auto].
Qed.

Lemma text_eqb_refl (a : text) : text_eqb a a = true.
Proof. apply text_eqb_eq; reflexivity. Qed.

Lemma starts_with_app (sub t : text) : starts_with sub (sub ++ t) = true.
Proof.
  induction sub as [|x sub IH]; simpl; [reflexivity|].
  rewrite N.eqb_refl; exact IH.
Qed.

Lemma starts_with_inv (sub s : text) :
  starts_with sub s = true -> s = sub ++ skipn (List.length sub) s.
Proof.
  revert s; induction sub as [|x sub IH]; intros s H; simpl in *.
  - reflexivity.
  - destruct s as [|y s]; [discriminate|].
    apply andb_true_iff in H as [Hxy Hs].
    apply N.eqb_eq in Hxy; subst y.
    f_equal; apply IH; exact Hs.
Qed.

Lemma starts_with_length (sub s : text) :
  starts_with sub s = true -> (List.length sub <= List.length s)%nat.
Proof.
  intros H; apply starts_with_inv in H.
  apply (f_equal (@List.length char)) in H.
  rewrite length_app in H; lia.
Qed.

Lemma occurs_at_app (a sub b : text) :
  occurs_at sub (a ++ sub ++ b) (List.length a).
Proof.
  split; [rewrite length_app; lia|].
  rewrite skipn_app, skipn_all, Nat.sub_diag; simpl.
  apply starts_with_app.
Qed.

Lemma find_nat_occurs (sub s : text) (j : nat) :
  find_nat sub s = Some j -> occurs_at sub s j.
Proof.
  revert j; induction s as [|c s IH]; intros j; simpl.
  - destruct (starts_with sub []) eqn:E; [|discriminate].
    intros [= <-]; split; [simpl; lia | exact E].
  - destruct (starts_with sub (c :: s)) eqn:E.
    + intros [= <-]; split; [lia | exact E].
    + destruct (find_nat sub s) as [j'|]; [|discriminate].
      simpl; intros [= <-].
      destruct (IH j' eq_refl) as [H1 H2].
      split; [simpl; lia | exact H2].
Qed.

Lemma find_nat_first (sub s : text) (k : nat) :
  occurs_at sub s k ->
  exists j, find_nat sub s = Some j /\ (j <= k)%nat.
Proof.
  revert k; induction s as [|c s IH]; intros k [Hk Hs]; simpl in *.
  - assert (k = 0)%nat by lia; subst k; simpl in Hs.
    rewrite Hs; exists 0%nat; split; [reflexivity | lia].
  - destruct (starts_with sub (c :: s)) eqn:E.
    + exists 0%nat; split; [reflexivity | lia].
    + destruct k as [|k]; [simpl in Hs; congruence|].
      simpl in Hs.
      destruct (IH k) as [j [Hj Hle]]; [split; [lia | exact Hs]|].
      rewrite Hj; exists (S j); split; [reflexivity | lia].
Qed.

Lemma rfind_nat_occurs (sub s : text) (j : nat) :
  rfind_nat sub s = Some j -> occurs_at sub s j.
Proof.
  revert j; induction s as [|c s IH]; intros j; simpl.
  - destruct (starts_with sub []) eqn:E; [|discriminate].
    intros [= <-]; split; [simpl; lia | exact E].
  - destruct (rfind_nat sub s) as [j'|].
    + intros [= <-]. destruct (IH j' eq_refl) as [H1 H2].
      split; [simpl; lia | exact H2].
    + destruct (starts_with sub (c :: s)) eqn:E; [|discriminate].
      intros [= <-]; split; [lia | exact E].
Qed.

Lemma rfind_nat_last (sub s : text) (k : nat) :
  occurs_at sub s k ->
  exists j, rfind_nat sub s = Some j /\ (k <= j)%nat.
Proof.
  revert k; induction s as [|c s IH]; intros k [Hk Hs]; simpl in *.
  - assert (k = 0)%nat by lia; subst k; simpl in Hs.
    rewrite Hs; exists 0%nat; split; [reflexivity | lia].
  - destruct k as [|k]; simpl in Hs.
    + destruct (rfind_nat sub s) as [j'|].
      * exists (S j'); split; [reflexivity | lia].
      * rewrite Hs; exists 0%nat; split; [reflexivity | lia].
    + destruct (IH k) as [j [Hj Hle]]; [split; [lia | exact Hs]|].
      rewrite Hj; exists (S j); split; [reflexivity | lia].
Qed.

Lemma occurs_at_prefix (sub x y : text) (k : nat) :
  occurs_at sub x k -> occurs_at sub (x ++ y) k.
Proof.
  intros [Hk Hs]; split; [rewrite length_app; lia|].
  rewrite skipn_app.
  apply starts_with_inv in Hs; rewrite Hs, <- app_assoc.
  apply starts_with_app.
Qed.

Lemma occurs_at_firstn (sub s : text) (b b' k : nat) :
  (b <= b')%nat ->
  occurs_at sub (firstn b s) k -> occurs_at sub (firstn b' s) k.
Proof.
  intros Hb H.
  replace (firstn b s) with (firstn b (firstn b' s)) in H
    by (rewrite firstn_firstn; f_equal; lia).
  rewrite <- (firstn_skipn b (firstn b' s)).
  apply occurs_at_prefix; exact H.
Qed.

Lemma len_nonneg (s : text) : 0 <= len s.
Proof. unfold len; lia. Qed.

Lemma len_app (a b : text) : len (a ++ b) = len a + len b.
Proof. unfold len; rewrite length_app; lia. Qed.

(** [find] from a start at or before an occurrence returns an index
    between the two. *)
Lemma find_between (s sub : text) (start : Z) (k : nat) :
  0 <= start <= Z.of_nat k ->
  occurs_at sub s k ->
  start <= find s sub start <= Z.of_nat k.
Proof.
  intros Hstart [Hk Hs]; unfold find, len.
  destruct (Z.ltb_spec start 0) as [?|_]; [lia|].
  destruct (Z.ltb_spec (Z.of_nat (List.length s)) start) as [?|_]; [lia|].
  destruct (find_nat_first sub (skipn (Z.to_nat start) s)
                           (k - Z.to_nat start)) as [j [Hj Hle]].
  - split; [rewrite length_skipn; lia|].
    rewrite skipn_skipn.
    replace (k - Z.to_nat start + Z.to_nat start)%nat with k by lia.
    exact Hs.
  - rewrite Hj; lia.
Qed.

Lemma split_aux_nonempty (sep s : text) (skip : nat) (acc : text) :
  split_aux sep s skip acc <> [].
Proof.
  revert skip acc; induction s as [|c s IH]; intros skip acc; simpl.
  - discriminate.
  - destruct skip; [|apply IH].
    destruct (starts_with sep (c :: s)); [discriminate | apply IH].
Qed.

Lemma join_cons (sep x : text) (l : list text) :
  l <> [] -> join sep (x :: l) = x ++ sep ++ join sep l.
Proof. destruct l; [congruence | reflexivity]. Qed.

(** Joining the chunks with the separator gives the text back. *)
Lemma join_split_aux (sep s : text) (skip : nat) (acc : text) :
  sep <> [] ->
  (skip <= List.length s)%nat ->
  join sep (split_aux sep s skip acc) = rev acc ++ skipn skip s.
Proof.
  intros Hsep; revert skip acc.
  induction s as [|c s IH]; intros skip acc Hskip; simpl in *.
  - assert (skip = 0)%nat by lia; subst; simpl.
    rewrite app_nil_r; reflexivity.
  - destruct skip as [|k].
    + destruct (starts_with sep (c :: s)) eqn:E.
      * rewrite join_cons by apply split_aux_nonempty.
        pose proof (starts_with_length _ _ E) as Hl; simpl in Hl.
        assert (List.length sep <> 0)%nat
          by (destruct sep; simpl; congruence).
        rewrite IH by lia; simpl.
        apply starts_with_inv in E.
        f_equal.
        transitivity (sep ++ skipn (List.length sep) (c :: s));
          [|symmetry; exact E].
        f_equal.
        replace (List.length sep) with (S (List.length sep - 1)) at 2
          by lia.
        reflexivity.
      * rewrite IH by lia; simpl.
        rewrite <- app_assoc; reflexivity.
    + rewrite IH by lia; reflexivity.
Qed.

Lemma join_split_lit (sep s : text) :
  sep <> [] -> join sep (split_lit sep s) = s.
Proof.
  intros Hsep; unfold split_lit.
  rewrite join_split_aux by (auto; lia); reflexivity.
Qed.

Lemma adjust_nonneg (i n : Z) :
  0 <= i -> 0 <= n -> adjust i n = Z.min i n.
Proof.
  intros Hi Hn; unfold adjust.
  destruct (Z.ltb_spec i 0); [lia | reflexivity].
Qed.

(** A slice followed by the rest of the text. *)
Lemma slice_slice_from (s : text) (a b : Z) :
  0 <= a <= b ->
  slice s a b ++ slice_from s b = slice_from s a.
Proof.
  intros H; unfold slice, slice_from.
  pose proof (len_nonneg s) as Hn.
  rewrite !adjust_nonneg by lia.
  set (a' := Z.min a (len s)); set (b' := Z.min b (len s)).
  replace (skipn (Z.to_nat b') s)
    with (skipn (Z.to_nat (b' - a')) (skipn (Z.to_nat a') s)).
  - apply firstn_skipn.
  - rewrite skipn_skipn; f_equal; subst a' b'; lia.
Qed.

Lemma slice_from_0 (s : text) : slice_from s 0 = s.
Proof.
  unfold slice_from; pose proof (len_nonneg s).
  rewrite adjust_nonneg, Z.min_l by lia; reflexivity.
Qed.

Section WithUnicode.
Context {U : Unicode}.

Lemma lstrip_keeps (x y : text) (c : char) :
  is_space c = false -> exists p, lstrip (x ++ c :: y) = p ++ c :: y.
Proof.
  intros Hc; induction x as [|a x IH]; simpl.
  - rewrite Hc; exists []; reflexivity.
  - destruct (is_space a); [exact IH|].
    exists (a :: x); reflexivity.
Qed.

Lemma rstrip_keeps (a b : text) (c : char) :
  is_space c = false -> exists q, rstrip (a ++ c :: b) = a ++ c :: q.
Proof.
  intros Hc; unfold rstrip.
  rewrite rev_app_distr; simpl; rewrite <- app_assoc; simpl.
  destruct (lstrip_keeps (rev b) (rev a) c Hc) as [p Hp].
  rewrite Hp, rev_app_distr; simpl.
  rewrite rev_involutive, <- app_assoc; simpl.
  exists (rev p); reflexivity.
Qed.

(** [strip] keeps everything between two characters that are not white
    space, the first of which opens the text. *)
Lemma strip_keeps (h c : char) (a b : text) :
  is_space h = false -> is_space c = false ->
  len a + 2 <= len (strip (h :: a ++ c :: b)).
Proof.
  intros Hh Hc; unfold strip; simpl; rewrite Hh.
  destruct (rstrip_keeps (h :: a) b c Hc) as [q Hq].
  simpl in Hq; rewrite Hq.
  unfold len; simpl; rewrite length_app; simpl; lia.
Qed.

(** On ASCII text [lower] works character by character. *)
Lemma lower_ascii_len (s : text) :
  forallb is_ascii s = true -> len (lower s) = len s.
Proof.
  intros H; rewrite (lower_ascii s H).
  unfold len; rewrite length_map; reflexivity.
Qed.

Lemma lower_ascii_app (a b : text) :
  forallb is_ascii (a ++ b) = true -> lower (a ++ b) = lower a ++ lower b.
Proof.
  intros H; pose proof H as H'.
  rewrite forallb_app in H'; apply andb_true_iff in H' as [Ha Hb].
  rewrite !lower_ascii by assumption; apply map_app.
Qed.

(** A character of ASCII that is not in the table of white space. *)
Lemma ascii_not_space (c : char) :
  is_ascii c = true -> ascii_space c = false -> is_space c = false.
Proof. intros Ha Hs; rewrite is_space_ascii by exact Ha; exact Hs. Qed.

End WithUnicode.

End PyFacts.

(* ================================================================= *)
(** ** The Segmenter *)

Module SegmenterProofs.
Import Py Json Extractor Props PyFacts Organizer Sample.

Section WithUnicode.
Context {U : Unicode}.

Lemma rising_weaken (lo lo' : Z) (l : list Z) :
  lo <= lo' -> rising lo' l -> rising lo l.
Proof. destruct l; simpl; [auto | intros ? [? ?]; split; [lia | auto]]. Qed.

Lemma message_start_nonneg (content : text) (p : Z) :
  0 <= message_start content p.
Proof.
  unfold message_start, rfind0.
  destruct (rfind_nat _ _); simpl; [|lia].
  destruct (Z.eqb_spec (Z.of_nat n) (-1)); lia.
Qed.

Lemma message_start_mono (content : text) (p p' : Z) :
  0 <= p <= p' ->
  message_start content p <= message_start content p'.
Proof.
  intros Hp.
  pose proof (message_start_nonneg content p') as Hnn.
  unfold message_start, rfind0 in *.
  pose proof (len_nonneg content) as Hn.
  rewrite !adjust_nonneg in * by lia.
  destruct (rfind_nat turn_marker
              (firstn (Z.to_nat (Z.min p (len content))) content))
    as [j|] eqn:Ej; [|simpl; exact Hnn].
  apply rfind_nat_occurs in Ej.
  apply (occurs_at_firstn _ _ _ (Z.to_nat (Z.min p' (len content))))
    in Ej; [|lia].
  destruct (rfind_nat_last _ _ _ Ej) as [j' [Ej' Hle]].
  rewrite Ej'.
  destruct (Z.eqb_spec (Z.of_nat j) (-1)); [lia|].
  destruct (Z.eqb_spec (Z.of_nat j') (-1)); lia.
Qed.

Lemma first_phrase_bound (phrases : list text) (ml : text) (off : Z) :
  first_phrase phrases ml = Some off -> 0 <= off <= len ml.
Proof.
  induction phrases as [|ph rest IH]; simpl; [discriminate|].
  unfold contains.
  destruct (find_nat ph ml) as [j|] eqn:Ej; [|exact IH].
  intros [= <-].
  pose proof (find_nat_occurs _ _ _ Ej) as [Hj _].
  unfold find, len in *.
  destruct (Z.ltb_spec 0 0); [lia|].
  destruct (Z.ltb_spec (Z.of_nat (List.length ml)) 0); [lia|].
  simpl; rewrite Ej; lia.
Qed.

(** The transition offsets come out in non-decreasing order when
    lowercasing lengthens no chunk: each chunk is found at or after the
    running index, which never passes the chunk's true place in the
    document. *)
Lemma scan_rising (content : text) (messages : list text) :
  forall (before : text) (first : bool) (current_index : Z),
    content = before ++ join turn_marker messages ->
    Forall (fun m => len (lower m) <= len m) messages ->
    0 <= current_index <= len before ->
    rising current_index
           (scan_messages content messages first current_index).
Proof.
  induction messages as [|m rest IH]; intros before first ci Hc Hkeep Hci;
    [exact I|].
  cbn [scan_messages].
  pose proof (Forall_inv Hkeep) as Hm_keep; cbv beta in Hm_keep.
  pose proof (Forall_inv_tail Hkeep) as Hrest_keep.
  assert (Hocc : occurs_at m content (List.length before)).
  { destruct rest as [|m' rest'].
    - simpl in Hc. rewrite Hc.
      replace (before ++ m) with (before ++ m ++ [])
        by (rewrite app_nil_r; reflexivity).
      apply occurs_at_app.
    - rewrite join_cons in Hc by discriminate.
      rewrite Hc; apply occurs_at_app. }
  pose proof (find_between content m ci _ Hci Hocc) as Hf.
  fold (len before) in Hf.
  set (f := find content m ci) in *.
  assert (Hrest : rising (f + len m)
                    (scan_messages content rest false (f + len m))).
  { destruct rest as [|m' rest']; [exact I|].
    apply (IH (before ++ m ++ turn_marker)).
    - rewrite Hc, join_cons by discriminate.
      rewrite <- !app_assoc; reflexivity.
    - exact Hrest_keep.
    - rewrite !len_app. pose proof (len_nonneg m).
      pose proof (len_nonneg turn_marker). lia. }
  pose proof (len_nonneg m) as Hm.
  destruct first.
  - simpl. apply (rising_weaken _ (f + len m)); [lia | exact Hrest].
  - destruct (first_phrase TOPIC_TRANSITION_PHRASES (lower m))
      as [off|] eqn:Eo.
    + apply first_phrase_bound in Eo.
      simpl. split; [lia|].
      apply (rising_weaken _ (f + len m)); [lia | exact Hrest].
    + simpl. apply (rising_weaken _ (f + len m)); [lia | exact Hrest].
Qed.

Lemma transitions_rising (content : text) :
  lower_keeps_chunks content ->
  rising 0 (detect_topic_transitions content).
Proof.
  intros Hkeep; unfold detect_topic_transitions.
  apply (scan_rising content _ []).
  - simpl; symmetry; apply join_split_lit; discriminate.
  - exact Hkeep.
  - unfold len; simpl; lia.
Qed.

(** Cuts taken at rising offsets tile the text from [start] on. *)
Lemma cut_parts_concat (content : text) (cuts : list Z) :
  forall (start lo : Z),
    0 <= lo -> rising lo cuts ->
    0 <= start <= message_start content lo ->
    List.concat (cut_parts content start cuts) = slice_from content start.
Proof.
  induction cuts as [|p rest IH]; intros start lo Hlo Hr Hs; simpl.
  - apply app_nil_r.
  - destruct Hr as [Hp Hr].
    fold (message_start content p).
    pose proof (message_start_mono content lo p ltac:(lia)) as Hm.
    pose proof (message_start_nonneg content p) as Hn.
    rewrite (IH (message_start content p) p) by (auto; lia).
    apply slice_slice_from; lia.
Qed.


(** Where lowercasing lengthens no chunk, the parts that
    [split_content_by_topics] cuts, taken before the blank ones are
    dropped, concatenate to the document. *)
Lemma topic_parts_concat (content : text) :
  lower_keeps_chunks content ->
  List.concat (topic_parts content) = content.
Proof.
  intros Hkeep; unfold topic_parts.
  rewrite (cut_parts_concat content _ 0 0).
  - apply slice_from_0.
  - lia.
  - apply transitions_rising, Hkeep.
  - pose proof (message_start_nonneg content 0); lia.
Qed.

Lemma ascii_chunks (sep : text) (l : list text) :
  forallb is_ascii (join sep l) = true ->
  Forall (fun m => forallb is_ascii m = true) l.
Proof.
  induction l as [|x l IH]; intros H; [constructor|].
  destruct l as [|y l]; [constructor; [exact H | constructor]|].
  rewrite join_cons in H by discriminate.
  rewrite !forallb_app in H.
  apply andb_true_iff in H as [Hx H]; apply andb_true_iff in H as [_ H].
  constructor; [exact Hx | apply IH, H].
Qed.

(** Lowercasing lengthens no chunk of an ASCII document. *)
Lemma ascii_keeps_chunks (content : text) :
  forallb is_ascii content = true -> lower_keeps_chunks content.
Proof.
  intros H; unfold lower_keeps_chunks.
  rewrite <- (join_split_lit turn_marker content) in H by discriminate.
  apply ascii_chunks in H.
  eapply Forall_impl; [|exact H].
  intros m Hm; rewrite (lower_ascii_len m Hm); lia.
Qed.

Lemma nonblank_In (c : char) (p : text) :
  In c p -> is_space c = false -> nonblank p = true.
Proof.
  intros Hin Hc; unfold nonblank; apply negb_true_iff.
  apply not_true_is_false; intros Hall.
  rewrite forallb_forall in Hall; rewrite (Hall c Hin) in Hc; discriminate.
Qed.

Lemma star_not_space : is_space (ch "*") = false.
Proof. apply ascii_not_space; reflexivity. Qed.

(** Two turn markers cannot overlap. *)
Lemma marker_gap (s : text) (a b : nat) :
  occurs_at turn_marker s a -> occurs_at turn_marker s b ->
  (a < b)%nat -> (a + 4 <= b)%nat.
Proof.
  intros [_ Ha] [_ Hb] Hlt.
  apply starts_with_inv in Ha.
  destruct (Nat.le_gt_cases (a + 4) b) as [|Hd]; [assumption|exfalso].
  replace b with ((b - a) + a)%nat in Hb by lia.
  rewrite <- skipn_skipn, Ha in Hb.
  assert (Hcases : (b - a = 1 \/ b - a = 2 \/ b - a = 3)%nat) by lia.
  destruct Hcases as [E|[E|E]]; rewrite E in Hb; simpl in Hb;
    discriminate.
Qed.

Lemma message_start_cut_point (content : text) (p : Z) :
  cut_point content (message_start content p).
Proof.
  unfold message_start, rfind0.
  destruct (rfind_nat turn_marker
              (firstn (Z.to_nat (adjust p (len content))) content))
    as [j|] eqn:Ej; [|left; reflexivity].
  destruct (Z.eqb_spec (Z.of_nat j) (-1)); [lia|].
  right; split; [lia|].
  apply rfind_nat_occurs in Ej.
  rewrite Nat2Z.id.
  rewrite <- (firstn_skipn (Z.to_nat (adjust p (len content))) content).
  apply occurs_at_prefix; exact Ej.
Qed.

Section Parts.
Variable content : text.
Hypothesis first_character :
  match content with
  | [] => True
  | c :: _ => is_space c = false
  end.

Lemma firstn_marker_nonblank (n : nat) (r : text) :
  (4 <= n)%nat -> nonblank (firstn n (turn_marker ++ r)) = true.
Proof.
  intros Hn; apply (nonblank_In (ch "*")); [|apply star_not_space].
  do 4 (destruct n as [|n]; [lia|]).
  simpl; right; right; left; reflexivity.
Qed.

Lemma part_empty_or_nonblank (a b : Z) :
  cut_point content a -> cut_point content b ->
  slice content a b = [] \/ nonblank (slice content a b) = true.
Proof.
  intros Ha Hb; unfold slice.
  pose proof (len_nonneg content) as Hlen.
  assert (Hbound : forall x, cut_point content x -> 0 <= x <= len content).
  { intros x [->|[Hx [Hle _]]]; unfold len in *; lia. }
  pose proof (Hbound a Ha) as Ha'; pose proof (Hbound b Hb) as Hb'.
  rewrite !adjust_nonneg by lia.
  rewrite !Z.min_l by lia.
  destruct (Z.le_gt_cases b a) as [Hle|Hlt].
  { left; replace (Z.to_nat (b - a)) with 0%nat by lia; reflexivity. }
  right.
  destruct Ha as [->|[_ Hoa]].
  - destruct content as [|c rest]; [unfold len in *; simpl in *; lia|].
    replace (Z.to_nat (b - 0)) with (S (Z.to_nat b - 1)) by lia.
    simpl; apply (nonblank_In c); [left; reflexivity|exact first_character].
  - destruct Hb as [->|[_ Hob]]; [lia|].
    pose proof (marker_gap _ _ _ Hoa Hob ltac:(lia)) as Hgap.
    destruct Hoa as [_ Hoa]; apply starts_with_inv in Hoa.
    rewrite Hoa; apply firstn_marker_nonblank; lia.
Qed.

Lemma last_part_empty_or_nonblank (a : Z) :
  cut_point content a ->
  slice_from content a = [] \/ nonblank (slice_from content a) = true.
Proof.
  intros Ha; unfold slice_from.
  pose proof (len_nonneg content) as Hlen.
  destruct Ha as [->|[Ha0 [Hle Hoa]]].
  - rewrite adjust_nonneg, Z.min_l by lia; simpl.
    destruct content as [|c rest]; [left; reflexivity|right].
    apply (nonblank_In c); [left; reflexivity | exact first_character].
  - right; rewrite adjust_nonneg, Z.min_l by (unfold len; lia).
    apply starts_with_inv in Hoa; rewrite Hoa.
    apply (nonblank_In (ch "*")); [|apply star_not_space].
    simpl; right; right; left; reflexivity.
Qed.

Lemma cut_parts_empty_or_nonblank (cuts : list Z) :
  forall start : Z,
    cut_point content start ->
    Forall (fun p => p = [] \/ nonblank p = true)
           (cut_parts content start cuts).
Proof.
  induction cuts as [|p rest IH]; intros start Hs; cbn [cut_parts].
  - constructor; [apply last_part_empty_or_nonblank, Hs | constructor].
  - fold (message_start content p).
    constructor.
    + apply part_empty_or_nonblank;
        [exact Hs | apply message_start_cut_point].
    + apply IH, message_start_cut_point.
Qed.

End Parts.

Lemma concat_filter_nonblank (l : list text) :
  Forall (fun p => p = [] \/ nonblank p = true) l ->
  List.concat (filter nonblank l) = List.concat l.
Proof.
  induction l as [|p l IH]; intros H; [reflexivity|].
  pose proof (Forall_inv H) as Hp; cbv beta in Hp.
  specialize (IH (Forall_inv_tail H)).
  cbn [filter]; destruct Hp as [->|Hp].
  - destruct (nonblank []); simpl; exact IH.
  - rewrite Hp; simpl; rewrite IH; reflexivity.
Qed.

(** Where lowercasing lengthens no chunk, the Segments of a document
    that opens with a character other than white space, as every
    rendered document does with its [#], concatenate to the document:
    the parts that are dropped are empty. *)
Theorem segments_rejoin (content : text) :
  lower_keeps_chunks content ->
  match content with
  | [] => True
  | c :: _ => is_space c = false
  end ->
  List.concat (split_content_by_topics content) = content.
Proof.
  intros Hkeep Hfirst; unfold split_content_by_topics.
  pose proof (topic_parts_concat content Hkeep) as Hparts.
  unfold topic_parts in *.
  destruct (detect_topic_transitions content) as [|p l].
  - simpl; apply app_nil_r.
  - rewrite concat_filter_nonblank; [exact Hparts|].
    apply cut_parts_empty_or_nonblank; [exact Hfirst | left; reflexivity].
Qed.

End WithUnicode.

(** A document with the phrase "now let's switch to" inside its second
    turn is cut immediately before that turn. *)
Example two_segments :
  split_content_by_topics
    (str "# T" ++ turn_marker ++ str "User**: hi" ++ turn_marker
       ++ str "ChatGPT**: Now let's switch to databases")
  = [str "# T" ++ turn_marker ++ str "User**: hi";
     turn_marker ++ str "ChatGPT**: Now let's switch to databases"].
Proof. vm_compute; reflexivity. Qed.

(** A document without any transition phrase is its own single
    Segment, white space included. *)
Example blank_document_single_segment :
  split_content_by_topics (str "  ") = [str "  "].
Proof. vm_compute; reflexivity. Qed.

(** C1.  The record [dotted_record] renders to a document of 148
    characters in which the first Turn holds 45 times the letter U+0130
    before the words "moving on to".  Lowercasing doubles each of these
    letters, so the offset found in the lowercased chunk lands 45
    characters late in the document, behind the third Turn; the cuts
    come out as 133 and then 106, and the two Segments, of 133 and 42
    characters, repeat the second Turn instead of partitioning the
    document. *)
Theorem dotted_document_not_partitioned :
  process_entry default_config (JObj dotted_record)
  = Written (str "T.md") dotted_document
  /\ len dotted_document = 148
  /\ detect_topic_transitions dotted_document = [137; 121]
  /\ split_content_by_topics dotted_document
     = [slice dotted_document 0 133; slice_from dotted_document 106]
  /\ List.concat (split_content_by_topics dotted_document)
     <> dotted_document.
Proof.
  repeat split; try (vm_compute; reflexivity).
  intros H; apply (f_equal (@List.length char)) in H.
  vm_compute in H; discriminate.
Qed.

End SegmenterProofs.

(* ================================================================= *)
(** ** The Tagger *)

Module TaggerProofs.
Import Py Props PyFacts Organizer.

Lemma mem_In (x : text) (l : list text) : mem x l = true <-> In x l.
Proof.
  unfold mem; rewrite existsb_exists; split.
  - intros [y [Hy E]]; apply text_eqb_eq in E; subst; exact Hy.
  - intros H; exists x; split; [exact H | apply text_eqb_refl].
Qed.

Lemma mem_false (x : text) (l : list text) :
  mem x l = false -> ~ In x l.
Proof. intros E H; apply mem_In in H; congruence. Qed.

Lemma add_scores_keys (g : text -> nat) (sc : list (text * nat)) :
  map fst (add_scores g sc) = map fst sc.
Proof. unfold add_scores; rewrite map_map; reflexivity. Qed.

Lemma add_scores_ext (g g' : text -> nat) (sc : list (text * nat)) :
  (forall k, g k = g' k) -> add_scores g sc = add_scores g' sc.
Proof.
  intros H; unfold add_scores; apply map_ext; intros kn; rewrite H;
    reflexivity.
Qed.

Lemma add_scores_zero (sc : list (text * nat)) :
  add_scores (fun _ => 0%nat) sc = sc.
Proof.
  unfold add_scores; induction sc as [|[k n] sc IH]; simpl;
    [reflexivity|].
  rewrite Nat.add_0_r, IH; reflexivity.
Qed.

Lemma add_scores_twice (g g' : text -> nat) (sc : list (text * nat)) :
  add_scores g' (add_scores g sc)
  = add_scores (fun k => (g k + g' k)%nat) sc.
Proof.
  unfold add_scores; rewrite map_map; apply map_ext; intros [k n]; simpl.
  rewrite Nat.add_assoc; reflexivity.
Qed.

(** [topic_scores[topic] += 1] raises the score of [topic] alone. *)
Lemma bump_add_scores (t : text) (sc : list (text * nat)) :
  distinct (map fst sc) = true ->
  bump t sc = add_scores (fun k => if text_eqb t k then 1 else 0)%nat sc.
Proof.
  induction sc as [|[k n] sc IH]; simpl; [reflexivity|].
  intros H; apply andb_true_iff in H as [Hk Hd].
  destruct (text_eqb t k) eqn:E.
  - apply text_eqb_eq in E; subst k.
    rewrite Nat.add_1_r; f_equal.
    rewrite <- (add_scores_zero sc) at 1.
    unfold add_scores; apply map_ext_in; intros [k' n'] Hin; simpl.
    destruct (text_eqb t k') eqn:E'; [|reflexivity].
    apply text_eqb_eq in E'; subst k'.
    apply negb_true_iff, mem_false in Hk.
    exfalso; apply Hk, in_map_iff; exists (t, n'); auto.
  - rewrite Nat.add_0_r, IH by exact Hd; reflexivity.
Qed.

(** The inner loop, over the topics, for one token. *)
Lemma inner_loop (h : text * list text -> bool)
      (lexicon : list (text * list text)) :
  forall sc : list (text * nat),
    distinct (map fst sc) = true ->
    fold_left (fun sc kv => if h kv then bump (fst kv) sc else sc)
              lexicon sc
    = add_scores (fun k => hits h k lexicon) sc.
Proof.
  induction lexicon as [|kv rest IH]; intros sc Hd; simpl.
  - symmetry; apply add_scores_zero.
  - assert (Hstep :
      (if h kv then bump (fst kv) sc else sc)
      = add_scores
          (fun k => if (text_eqb (fst kv) k && h kv)%bool then 1 else 0)%nat
          sc).
    { destruct (h kv).
      - rewrite bump_add_scores by exact Hd.
        apply add_scores_ext; intros k; rewrite andb_true_r; reflexivity.
      - rewrite <- (add_scores_zero sc) at 1.
        apply add_scores_ext; intros k; rewrite andb_false_r; reflexivity. }
    rewrite Hstep, IH by (rewrite add_scores_keys; exact Hd).
    apply add_scores_twice.
Qed.

Section WithUnicode.
Context {U : Unicode}.

(** The outer loop, over the tokens. *)
Lemma outer_loop (content : text) (lexicon : list (text * list text))
      (tokens : list text) :
  forall sc : list (text * nat),
    distinct (map fst sc) = true ->
    fold_left (score_token lexicon content) tokens sc
    = add_scores (fun k => total_hits content lexicon k tokens) sc.
Proof.
  induction tokens as [|token rest IH]; intros sc Hd; simpl.
  - symmetry; apply add_scores_zero.
  - unfold score_token at 2.
    rewrite (inner_loop
               (fun kv => keyword_hit content token (snd kv)) lexicon sc Hd).
    rewrite IH by (rewrite add_scores_keys; exact Hd).
    apply add_scores_twice.
Qed.

Lemma hits_absent (h : text * list text -> bool) (k : text)
      (lexicon : list (text * list text)) :
  ~ In k (map fst lexicon) -> hits h k lexicon = 0%nat.
Proof.
  induction lexicon as [|kv rest IH]; simpl; [reflexivity|].
  intros H.
  destruct (text_eqb (fst kv) k) eqn:E.
  - apply text_eqb_eq in E; tauto.
  - simpl; apply IH; tauto.
Qed.

Lemma hits_present (h : text * list text -> bool)
      (lexicon : list (text * list text)) (kv : text * list text) :
  distinct (map fst lexicon) = true -> In kv lexicon ->
  hits h (fst kv) lexicon = (if h kv then 1 else 0)%nat.
Proof.
  induction lexicon as [|kv' rest IH]; simpl; [tauto|].
  intros Hd Hin; apply andb_true_iff in Hd as [Hk Hd].
  apply negb_true_iff, mem_false in Hk.
  destruct Hin as [->|Hin].
  - rewrite text_eqb_refl, hits_absent by exact Hk; simpl.
    apply Nat.add_0_r.
  - destruct (text_eqb (fst kv') (fst kv)) eqn:E.
    + apply text_eqb_eq in E; exfalso; apply Hk; rewrite E.
      apply in_map; exact Hin.
    + simpl; apply IH; assumption.
Qed.

Lemma total_hits_count (content : text)
      (lexicon : list (text * list text)) (kv : text * list text)
      (tokens : list text) :
  distinct (map fst lexicon) = true -> In kv lexicon ->
  total_hits content lexicon (fst kv) tokens
  = List.length (filter (fun t => keyword_hit content t (snd kv)) tokens).
Proof.
  intros Hd Hin; induction tokens as [|t rest IH]; simpl; [reflexivity|].
  rewrite IH, (hits_present _ lexicon kv Hd Hin).
  destruct (keyword_hit content t (snd kv)); reflexivity.
Qed.

Lemma count_words_no_space (s : text) :
  forallb is_alnum_char s = true ->
  count_words s true = 0%nat /\ (count_words s false <= 1)%nat.
Proof.
  induction s as [|c s IH]; simpl; [lia|].
  intros H; apply andb_true_iff in H as [Hc Hs].
  rewrite (alnum_not_space c Hc).
  destruct (IH Hs) as [H1 _]; rewrite H1; lia.
Qed.

(** A token kept by the filter is a single word. *)
Lemma alnum_single_word (token : text) :
  isalnum token = true -> multi_word token = false.
Proof.
  unfold isalnum, multi_word; destruct token as [|c s]; [discriminate|].
  intros H; destruct (count_words_no_space _ H) as [_ Hle].
  apply Nat.ltb_ge; exact Hle.
Qed.

Lemma existsb_pointwise {A : Type} (f g : A -> bool) (l : list A) :
  (forall x, f x = g x) -> existsb f l = existsb g l.
Proof.
  intros H; induction l as [|x l IH]; simpl; [reflexivity|].
  rewrite H, IH; reflexivity.
Qed.

(** For a filtered token the test of the source is the scoring rule of
    the specification. *)
Lemma keyword_hit_spec (content token : text) (keywords : list text) :
  isalnum token = true ->
  keyword_hit content token keywords
  = (mem token (single_word_keywords keywords)
     || phrase_present content keywords)%bool.
Proof.
  intros Ha; unfold keyword_hit, phrase_present.
  f_equal.
  - apply eq_true_iff_eq.
    rewrite !mem_In; unfold single_word_keywords; rewrite filter_In.
    rewrite (alnum_single_word token Ha); simpl; tauto.
  - apply existsb_pointwise; intros k; apply andb_comm.
Qed.

Lemma distinct_topics : distinct (map fst TOPIC_KEYWORDS) = true.
Proof. vm_compute; reflexivity. Qed.

Context {N : Nltk}.

Lemma filtered_tokens_alnum (content token : text) :
  In token (filtered_tokens content) -> isalnum token = true.
Proof.
  unfold filtered_tokens; rewrite filter_In.
  intros [_ H]; apply andb_true_iff in H; tauto.
Qed.

(** The tags over any lexicon with pairwise different topic names. *)
Lemma tags_for_spec (lexicon : list (text * list text)) (content : text) :
  distinct (map fst lexicon) = true ->
  tags_for lexicon content
  = str "chatgpt"
      :: map fst
           (filter (fun kv =>
                      Nat.ltb 1 (topic_score (lower content)
                                   (filtered_tokens (lower content))
                                   (snd kv)))
                   lexicon).
Proof.
  intros Hd; unfold tags_for; f_equal.
  rewrite outer_loop by (rewrite map_map; exact Hd).
  set (tokens := filtered_tokens (lower content)).
  unfold add_scores; rewrite map_map; simpl.
  assert (Hgen : forall l : list (text * list text),
            incl l lexicon ->
            map fst
              (filter (fun ts : text * nat => Nat.ltb 1 (snd ts))
                 (map (fun kv : text * list text =>
                         (fst kv,
                          total_hits (lower content) lexicon (fst kv)
                                     tokens)) l))
            = map fst
                (filter (fun kv =>
                           Nat.ltb 1 (topic_score (lower content) tokens
                                        (snd kv))) l)).
  { induction l as [|kv l IH]; intros Hl; simpl; [reflexivity|].
    assert (Hin : In kv lexicon) by (apply Hl; left; reflexivity).
    rewrite (total_hits_count _ _ _ _ Hd Hin).
    assert (Hsc :
      List.length
        (filter (fun t => keyword_hit (lower content) t (snd kv)) tokens)
      = topic_score (lower content) tokens (snd kv)).
    { unfold topic_score; f_equal; apply filter_ext_in; intros t Ht.
      apply keyword_hit_spec.
      apply (filtered_tokens_alnum (lower content)); exact Ht. }
    rewrite Hsc.
    destruct (Nat.ltb 1 (topic_score (lower content) tokens (snd kv)));
      simpl; rewrite IH by (intros x Hx; apply Hl; right; exact Hx);
      reflexivity. }
  apply Hgen, incl_refl.
Qed.

(** C7.  The TagSet is the sentinel followed by exactly the topics whose
    score is strictly greater than 1, in the declared order of the
    lexicon; the score of a topic counts the filtered tokens that are one
    of its single-word keywords, or every filtered token when one of its
    multi-word phrases is a substring of the lowercased text. *)
Theorem tagger_selection (content : text) :
  extract_tags_from_content content
  = str "chatgpt"
      :: map fst
           (filter (fun kv =>
                      Nat.ltb 1 (topic_score (lower content)
                                   (filtered_tokens (lower content))
                                   (snd kv)))
                   TOPIC_KEYWORDS).
Proof. apply tags_for_spec, distinct_topics. Qed.

(** C8.  For every text, the empty one included, the TagSet is not empty
    and its element at index 0 is the sentinel tag. *)
Theorem tagger_sentinel_first (content : text) :
  extract_tags_from_content content <> []
  /\ nth_error (extract_tags_from_content content) 0 = Some (str "chatgpt").
Proof. split; [discriminate | reflexivity]. Qed.

End WithUnicode.

End TaggerProofs.

(* ================================================================= *)
(** ** The Extractor and the Renderer *)

Module ExtractorProofs.
Import Py Json Extractor Props PyFacts Sample.

Section WithPlatform.
Context {U : Unicode} {P : Platform}.









(** Discovery in [extract_messages_safely]: a [mapping] first, even an
    empty one; a [messages] list only when there is no [mapping] key. *)
Lemma discovery_mapping (items m : list (text * json)) :
  lookup (str "mapping") items = Some (JObj m) ->
  extract_messages_safely (JObj items) = Ok (mapping_messages m).
Proof.
  intros H; unfold extract_messages_safely; rewrite H.
  destruct m; reflexivity.
Qed.

Lemma discovery_messages (items : list (text * json)) (l : list json) :
  lookup (str "mapping") items = None ->
  lookup (str "messages") items = Some (JArr l) ->
  extract_messages_safely (JObj items) = Ok (filter truthy l).
Proof.
  intros Hm Hl; unfold extract_messages_safely; rewrite Hm, Hl.
  reflexivity.
Qed.

Lemma discovery_neither (items : list (text * json)) :
  lookup (str "mapping") items = None ->
  lookup (str "messages") items = None ->
  extract_messages_safely (JObj items) = Ok [].
Proof.
  intros Hm Hl; unfold extract_messages_safely; rewrite Hm, Hl.
  reflexivity.
Qed.

(** [process_conversations] reads [mapping] only: a record without that
    key is never written, whatever its [messages] list holds. *)
Lemma no_mapping_no_file (cfg : config) (items : list (text * json)) :
  lookup (str "mapping") items = None ->
  forall f c, process_entry cfg (JObj items) <> Written f c.
Proof.
  intros Hm f c; unfold process_entry, get_default; rewrite Hm.
  cbn [truthy].
  destruct (conversation_create_time items) as [ct|]; [|discriminate].
  destruct (valid_time ct) as [t|]; [|discriminate].
  destruct (fromtimestamp t) as [d|]; [|discriminate].
  destruct (year d <? filter_before_year cfg); discriminate.
Qed.

(** C5, as amended.  The Turns that [process_conversations] collects
    from a mapping are as many as the nodes whose [message] is a [dict];
    the messages that [extract_messages_safely] collects are as many as
    the nodes whose [message] is truthy. *)
Theorem turn_count (mapping : list (text * json)) :
  List.length (collect_messages mapping)
  = List.length (filter (fun kv => has_dict_message (snd kv)) mapping)
  /\ List.length (mapping_messages mapping)
     = List.length (filter (fun kv => has_truthy_message (snd kv)) mapping).
Proof.
  split; induction mapping as [|[k node] rest IH]; try reflexivity;
    cbn [collect_messages mapping_messages flat_map filter snd] in *;
    rewrite length_app.
  - unfold collect_messages in IH; rewrite IH.
    unfold has_dict_message.
    destruct node as [| | | | |item]; try reflexivity.
    destruct (lookup (str "message") item) as [[| | | | |message]|];
      try reflexivity.
    destruct (lookup (str "author") message) as [[| | | | |a]|];
      reflexivity.
  - unfold mapping_messages in IH; rewrite IH.
    unfold has_truthy_message.
    destruct node as [| | | | |item]; try reflexivity.
    destruct (lookup (str "message") item) as [message|];
      try reflexivity.
    destruct (truthy message); reflexivity.
Qed.

(** Every rendered document opens with the title marker and carries
    the id line, so its trimmed length is well above the floor of the
    guard. *)
Lemma render_long (cfg : config) (conversation_id : json)
      (dt : option datetime) (date_str inferred_title : text)
      (messages : list json) (content : text) :
  render cfg conversation_id dt date_str inferred_title messages
  = Ok content ->
  10 <= len (strip content).
Proof.
  unfold render.
  destruct (match dt with
            | Some d =>
                match strftime d (str "%Y-%m-%d %H:%M:%S") with
                | Some formatted_date =>
                    Ok (str "<sub>Creation time: " ++ formatted_date
                          ++ str "</sub>" ++ message_separator cfg)
                | None => Raise
                end
            | None => Ok []
            end) as [creation|]; cbv beta iota zeta delta [bind];
    [|discriminate].
  intros [= <-].
  match goal with
  | |- _ <= len (strip ?c) =>
      assert (Hshape : exists x r : text,
                c = ch "#" :: (x ++ str "<sub>Conv") ++ ch "e" :: r)
  end.
  { unfold header_of, id_line.
    destruct date_str as [|c0 ds].
    - eexists (ch " " :: inferred_title ++ message_separator cfg), _.
      cbn -[message_lines]. rewrite <- !app_assoc. reflexivity.
    - eexists (ch " " :: (c0 :: ds) ++ str " " ++ inferred_title
                 ++ message_separator cfg), _.
      cbn -[message_lines]. rewrite <- !app_assoc. reflexivity. }
  destruct Hshape as [x [r ->]].
  pose proof (strip_keeps (ch "#") (ch "e") (x ++ str "<sub>Conv") r
                (ascii_not_space (ch "#") eq_refl eq_refl)
                (ascii_not_space (ch "e") eq_refl eq_refl)) as H.
  rewrite len_app in H. pose proof (len_nonneg x).
  change (len (str "<sub>Conv")) with 9 in H. lia.
Qed.

(** A document whose trimmed length is below the floor is discarded. *)
Lemma write_guard_floor (file_name content : text) :
  len (strip content) < 10 ->
  write_guard file_name content = Skipped Insufficient.
Proof.
  intros H; unfold write_guard.
  destruct (Z.ltb_spec (len (strip content)) 10); [reflexivity | lia].
Qed.


End WithPlatform.

(** C9.  The record
    [{"id": "c1", "title": "", "mapping": {"a": {"message":
      {"author": {"role": "user"}, "content": ""}}}}]
    renders, with empty messages skipped, to the title line and the id
    line alone, and that document is written: the floor of 10 characters
    is below the length of any header. *)
Theorem header_only_document_written :
  process_entry default_config (JObj empty_turn_record)
  = Written (str "Untitled_Conversation.md")
      (str "# Untitled Conversation" ++ [nl; nl]
         ++ str "<sub>Conversation ID: c1</sub>" ++ [nl; nl]).
Proof. vm_compute; reflexivity. Qed.

(** C3.  The record
    [{"title": "t", "messages": [{"author": {"role": "user"},
      "content": "Hello world"}]}]
    has a flat [messages] list: [extract_messages_safely] finds its
    message, but [process_conversations], which never calls it, skips the
    record for want of a [mapping]. *)
Theorem flat_messages_ignored :
  extract_messages_safely flat_record
  = Ok [obj [("author", user_author);
             ("content", jstr "Hello world")]%string]
  /\ process_entry default_config flat_record = Skipped NoMapping.
Proof. split; reflexivity. Qed.

(** C5 fails as stated: of two nodes whose [message] is present and not
    null, the one whose message is a string gives no Turn, and the
    record is written with the other Turn alone. *)
Lemma turn_count_skips_string_message :
  List.length (collect_messages stray_message_mapping) = 1%nat
  /\ List.length
       (filter (fun kv => has_message (snd kv)) stray_message_mapping)
     = 2%nat
  /\ process_entry default_config
       (JObj [(str "mapping", JObj stray_message_mapping)])
     = Written (str "Hello_world.md")
         (str "# Hello world" ++ [nl; nl]
            ++ str "<sub>Conversation ID: unknown</sub>" ++ [nl; nl]
            ++ str "**User**: Hello world" ++ [nl; nl]).
Proof. repeat split; vm_compute; reflexivity. Qed.




End ExtractorProofs.

(* ================================================================= *)
(** ** The order of the Turns *)

Module SortProofs.
Import Py Json Extractor Props PyFacts Sample.





Section WithPlatform.
Context {U : Unicode} {P : Platform}.









(** The key of a message with a numeric time is a number or an
    infinity. *)
Lemma numeric_time_key (message : json) :
  numeric_time message ->
  exists k, ordered_key (sort_key message) = Some k
            /\ same_kind (KNum 0) k = true.
Proof.
  intros [items [-> H]]; unfold sort_key, get_default.
  destruct (lookup (str "create_time") items) as [v|];
    [|exists (KNum 0); split; reflexivity].
  destruct H as [Hf|[x [Hx Hn]]].
  - rewrite Hf; exists (KNum 0); split; reflexivity.
  - destruct (truthy v); [|exists (KNum 0); split; reflexivity].
    destruct v as [|b|y|s|l|kv]; try discriminate.
    + eexists; split; reflexivity.
    + injection Hx as ->.
      destruct x as [q| |[]]; [| congruence | |];
        eexists; split; reflexivity.
Qed.

Lemma string_time_key (message : json) :
  string_time message ->
  exists s, ordered_key (sort_key message) = Some (KStr s).
Proof.
  intros [items [s [-> [H Hs]]]]; unfold sort_key, get_default.
  rewrite H; destruct s as [|c s]; [congruence|].
  exists (c :: s); reflexivity.
Qed.

Lemma same_kind_numeric (k k' : skey) :
  same_kind (KNum 0) k = true -> same_kind (KNum 0) k' = true ->
  same_kind k k' = true.
Proof. destruct k, k'; simpl; congruence. Qed.

(** Comparable times are sorted, stably. *)
Lemma comparable_sort (messages : list json) :
  times_comparable messages ->
  sort_messages messages = Ok (stable_sort messages).
Proof.
  intros H; unfold sort_messages.
  destruct messages as [|m [|m' rest]]; try reflexivity.
  assert (Hc : comparable_with m (m :: m' :: rest) = true).
  { unfold comparable_with; destruct H as [H|H].
    - destruct (numeric_time_key m (Forall_inv H)) as [k [-> Hk]].
      apply forallb_forall; intros x Hx.
      rewrite Forall_forall in H.
      destruct (numeric_time_key x (H x Hx)) as [k' [-> Hk']].
      apply same_kind_numeric; assumption.
    - destruct (string_time_key m (Forall_inv H)) as [s ->].
      apply forallb_forall; intros x Hx.
      rewrite Forall_forall in H.
      destruct (string_time_key x (H x Hx)) as [s' ->]; reflexivity. }
  rewrite Hc; reflexivity.
Qed.


End WithPlatform.



End SortProofs.
(* ================================================================= *)
(** ** Records without any timestamp *)

Module UndatedProofs.
Import Py Json Extractor Props PyFacts Sample SortProofs ExtractorProofs.

Section WithPlatform.
Context {U : Unicode} {P : Platform}.





End WithPlatform.



End UndatedProofs.

(* ================================================================= *)
(** ** More on the Segmenter *)

Module SegmenterExtras.
Import Py Props PyFacts Organizer SegmenterProofs Sample.

Section WithUnicode.
Context {U : Unicode}.

(** An occurrence inside a piece is an occurrence inside the whole. *)
Lemma occurs_at_inside (sub a m b : text) (k : nat) :
  occurs_at sub m k ->
  occurs_at sub (a ++ m ++ b) (List.length a + k).
Proof.
  intros [Hk Hs]; split; [rewrite !length_app; lia|].
  rewrite skipn_app, skipn_all2 by lia.
  replace (List.length a + k - List.length a)%nat with k by lia.
  simpl. rewrite skipn_app.
  apply starts_with_inv in Hs; rewrite Hs, <- app_assoc.
  apply starts_with_app.
Qed.

(** Where [sub] occurs, the text splits around it. *)
Lemma occurs_at_split (sub s : text) (k : nat) :
  occurs_at sub s k ->
  s = firstn k s ++ sub ++ skipn (List.length sub) (skipn k s)
  /\ List.length (firstn k s) = k.
Proof.
  intros [Hk Hs]; split; [|apply firstn_length_le; exact Hk].
  apply starts_with_inv in Hs.
  rewrite <- Hs; symmetry; apply firstn_skipn.
Qed.

Lemma occurs_at_length (sub s : text) (k : nat) :
  occurs_at sub s k -> (k + List.length sub <= List.length s)%nat.
Proof.
  intros [Hk Hs]; apply starts_with_length in Hs.
  rewrite length_skipn in Hs; lia.
Qed.

(** A successful [find] returns the offset of an occurrence. *)
Lemma find_occurs (s sub : text) (start : Z) :
  0 <= start -> find s sub start <> -1 ->
  occurs_at sub s (Z.to_nat (find s sub start)).
Proof.
  intros Hs; unfold find, len.
  destruct (Z.ltb_spec start 0) as [?|_]; [lia|].
  destruct (Z.ltb_spec (Z.of_nat (List.length s)) start) as [?|Hle];
    [congruence|].
  destruct (find_nat sub (skipn (Z.to_nat start) s)) as [j|] eqn:Ej;
    [|congruence].
  intros _; apply find_nat_occurs in Ej as [Hj Hocc].
  rewrite length_skipn in Hj; rewrite skipn_skipn in Hocc.
  replace (Z.to_nat (start + Z.of_nat j)) with (j + Z.to_nat start)%nat
    by lia.
  split; [lia | exact Hocc].
Qed.

Lemma find_from_0 (s sub : text) :
  find s sub 0
  = match find_nat sub s with Some j => Z.of_nat j | None => -1 end.
Proof.
  unfold find. change (0 <? 0) with false. cbv iota.
  pose proof (len_nonneg s).
  destruct (Z.ltb_spec (len s) 0); [lia|].
  change (skipn (Z.to_nat 0) s) with s.
  destruct (find_nat sub s); [lia | reflexivity].
Qed.

Lemma first_phrase_occurs (phrases : list text) (ml : text) (off : Z) :
  first_phrase phrases ml = Some off ->
  exists phrase, In phrase phrases /\ occurs_at phrase ml (Z.to_nat off).
Proof.
  induction phrases as [|ph rest IH]; simpl; [discriminate|].
  unfold contains.
  destruct (find_nat ph ml) as [j|] eqn:Ej.
  - intros [= <-]; exists ph; split; [left; reflexivity|].
    apply find_occurs; [lia|].
    rewrite find_from_0, Ej; lia.
  - intros H; destruct (IH H) as [p [Hin Hp]].
    exists p; split; [right; exact Hin | exact Hp].
Qed.

(** What holds of every offset the scan records in an ASCII
    document. *)
Lemma scan_each (content : text) (messages : list text) :
  forallb is_ascii content = true ->
  forall (before : text) (first : bool) (current_index : Z),
    content = before ++ join turn_marker messages ->
    0 <= current_index <= len before ->
    Forall (fun p =>
              0 <= p <= len content
              /\ exists phrase,
                   In phrase TOPIC_TRANSITION_PHRASES
                   /\ occurs_at phrase (lower content) (Z.to_nat p))
           (scan_messages content messages first current_index).
Proof.
  intros Hascii.
  induction messages as [|m rest IH]; intros before first ci Hc Hci;
    [constructor|].
  cbn [scan_messages].
  assert (Hocc : occurs_at m content (List.length before)).
  { destruct rest as [|m' rest'].
    - simpl in Hc. rewrite Hc.
      replace (before ++ m) with (before ++ m ++ [])
        by (rewrite app_nil_r; reflexivity).
      apply occurs_at_app.
    - rewrite join_cons in Hc by discriminate.
      rewrite Hc; apply occurs_at_app. }
  pose proof (find_between content m ci _ Hci Hocc) as Hf.
  fold (len before) in Hf.
  assert (Hfo : occurs_at m content (Z.to_nat (find content m ci)))
    by (apply find_occurs; lia).
  set (f := find content m ci) in *.
  pose proof (len_nonneg m) as Hm.
  apply Forall_app; split.
  - destruct first; [constructor|].
    destruct (first_phrase TOPIC_TRANSITION_PHRASES (lower m))
      as [off|] eqn:Eo; [|constructor].
    pose proof (first_phrase_bound _ _ _ Eo) as Hoff.
    destruct (first_phrase_occurs _ _ _ Eo) as [phrase [Hin Hp]].
    destruct (occurs_at_split _ _ _ Hfo) as [Hsplit Hlenf].
    pose proof Hascii as Hpieces.
    rewrite Hsplit, !forallb_app in Hpieces.
    apply andb_true_iff in Hpieces as [Hpre Hpieces].
    apply andb_true_iff in Hpieces as [Hmid Hpost].
    rewrite (lower_ascii_len m Hmid) in Hoff.
    constructor; [|constructor].
    pose proof (occurs_at_length _ _ _ Hfo) as Hlen.
    split; [unfold len in *; lia|].
    exists phrase; split; [exact Hin|].
    assert (Hlow : lower content
                   = lower (firstn (Z.to_nat f) content) ++ lower m
                     ++ lower (skipn (List.length m)
                                 (skipn (Z.to_nat f) content))).
    { rewrite Hsplit at 1.
      rewrite lower_ascii_app by (rewrite <- Hsplit; exact Hascii).
      rewrite (lower_ascii_app m)
        by (rewrite forallb_app, Hmid, Hpost; reflexivity).
      reflexivity. }
    rewrite Hlow.
    replace (Z.to_nat (f + off))
      with (List.length (lower (firstn (Z.to_nat f) content))
            + Z.to_nat off)%nat.
    + apply occurs_at_inside; exact Hp.
    + pose proof (lower_ascii_len _ Hpre) as Hl.
      unfold len in Hl; rewrite Hlenf in Hl. lia.
  - destruct rest as [|m' rest']; [constructor|].
    apply (IH (before ++ m ++ turn_marker)).
    + rewrite Hc, join_cons by discriminate.
      rewrite <- !app_assoc; reflexivity.
    + rewrite !len_app. pose proof (len_nonneg turn_marker). lia.
Qed.

Lemma rising_sorted (lo : Z) (l : list Z) : rising lo l -> Sorted Z.le l.
Proof.
  revert lo; induction l as [|p l IH]; intros lo; simpl; [constructor|].
  intros [_ Hr]; constructor; [apply (IH p), Hr|].
  destruct l; constructor; simpl in Hr; tauto.
Qed.

(** X1.  In an ASCII document the offsets that
    [detect_topic_transitions] returns are in non-decreasing order, lie
    inside the document, and each is a place where one of the transition
    phrases stands in the lowercased document. *)
Theorem transitions_point_at_phrases (content : text) :
  forallb is_ascii content = true ->
  Sorted Z.le (detect_topic_transitions content)
  /\ Forall (fun p =>
               0 <= p <= len content
               /\ exists phrase,
                    In phrase TOPIC_TRANSITION_PHRASES
                    /\ occurs_at phrase (lower content) (Z.to_nat p))
            (detect_topic_transitions content).
Proof.
  intros Hascii; split.
  - apply (rising_sorted 0), transitions_rising, ascii_keeps_chunks, Hascii.
  - unfold detect_topic_transitions.
    apply (scan_each content _ Hascii []).
    + simpl; symmetry; apply join_split_lit; discriminate.
    + unfold len; simpl; lia.
Qed.

Lemma scan_length (content : text) (messages : list text) :
  forall (first : bool) (ci : Z),
    (List.length (scan_messages content messages first ci)
     <= List.length messages - (if first then 1 else 0))%nat.
Proof.
  induction messages as [|m rest IH]; intros first ci; [simpl; lia|].
  cbn [scan_messages]. rewrite length_app.
  specialize (IH false (find content m ci + len m)).
  destruct first; cbn [List.length] in *; [lia|].
  destruct (first_phrase TOPIC_TRANSITION_PHRASES (lower m));
    cbn [List.length]; lia.
Qed.

Lemma cut_parts_length (content : text) (cuts : list Z) (start : Z) :
  List.length (cut_parts content start cuts) = S (List.length cuts).
Proof.
  revert start; induction cuts as [|p rest IH]; intros start; simpl;
    [reflexivity | rewrite IH; reflexivity].
Qed.

(** X2.  There is at most one transition for each chunk after the first, and
    so never more Segments than chunks between turn markers. *)
Theorem segments_at_most_chunks (content : text) :
  (List.length (detect_topic_transitions content) + 1
   <= List.length (split_lit turn_marker content))%nat
  /\ (List.length (split_content_by_topics content)
      <= List.length (split_lit turn_marker content))%nat.
Proof.
  assert (H : (List.length (detect_topic_transitions content) + 1
               <= List.length (split_lit turn_marker content))%nat).
  { unfold detect_topic_transitions.
    pose proof (scan_length content (split_lit turn_marker content) true 0)
      as H.
    unfold split_lit in *.
    pose proof (split_aux_nonempty turn_marker content 0 []) as Hne.
    destruct (split_aux turn_marker content 0 []); [congruence|].
    cbn [List.length] in *; lia. }
  split; [exact H|].
  unfold split_content_by_topics, topic_parts.
  destruct (detect_topic_transitions content) as [|p l] eqn:E.
  - simpl in *; lia.
  - etransitivity; [apply filter_length_le|].
    rewrite cut_parts_length; lia.
Qed.

Lemma split_without_separator (sep s : text) :
  forall acc : text,
    find_nat sep s = None -> split_aux sep s 0 acc = [rev acc ++ s].
Proof.
  induction s as [|c s IH]; intros acc; simpl.
  - intros _; rewrite app_nil_r; reflexivity.
  - destruct (starts_with sep (c :: s)); [discriminate|].
    destruct (find_nat sep s); [discriminate|].
    intros _; rewrite IH by reflexivity; simpl.
    rewrite <- app_assoc; reflexivity.
Qed.

(** X3.  A document in which the turn marker never occurs is returned whole,
    as one Segment, whatever phrases it contains. *)
Theorem no_marker_single_segment (content : text) :
  contains turn_marker content = false ->
  detect_topic_transitions content = []
  /\ split_content_by_topics content = [content].
Proof.
  unfold contains; intros H.
  destruct (find_nat turn_marker content) eqn:E; [discriminate|].
  assert (Hd : detect_topic_transitions content = []).
  { unfold detect_topic_transitions, split_lit.
    rewrite split_without_separator by exact E; reflexivity. }
  split; [exact Hd|].
  unfold split_content_by_topics; rewrite Hd; reflexivity.
Qed.

Lemma nonblank_app (a b : text) :
  nonblank (a ++ b) = (nonblank a || nonblank b)%bool.
Proof.
  unfold nonblank; rewrite forallb_app, negb_andb; reflexivity.
Qed.

Lemma slice_from_split (s : text) (a b : Z) :
  0 <= a <= b -> slice_from s a = slice s a b ++ slice_from s b.
Proof. intros H; symmetry; apply slice_slice_from; exact H. Qed.

(** Whatever the cuts are, the parts cover the document from [start]
    on: something that is not white space there is in one of them. *)
Lemma cut_parts_cover (content : text) (cuts : list Z) :
  forall start : Z,
    0 <= start ->
    nonblank (slice_from content start) = true ->
    exists part, In part (cut_parts content start cuts)
                 /\ nonblank part = true.
Proof.
  induction cuts as [|p rest IH]; intros start Hs Hnb; cbn [cut_parts].
  - exists (slice_from content start); split; [left; reflexivity|exact Hnb].
  - fold (message_start content p).
    pose proof (message_start_nonneg content p) as Hm.
    destruct (Z.le_gt_cases start (message_start content p)) as [Hle|Hgt].
    + rewrite (slice_from_split content start (message_start content p))
        in Hnb by lia.
      rewrite nonblank_app in Hnb; apply orb_true_iff in Hnb as [Hn|Hn].
      * eexists; split; [left; reflexivity | exact Hn].
      * destruct (IH _ Hm Hn) as [part [Hin Hp]].
        exists part; split; [right; exact Hin | exact Hp].
    + assert (Hn : nonblank (slice_from content (message_start content p))
                   = true).
      { rewrite (slice_from_split content (message_start content p) start)
          by lia.
        rewrite nonblank_app, Hnb; apply orb_true_r. }
      destruct (IH _ Hm Hn) as [part [Hin Hp]].
      exists part; split; [right; exact Hin | exact Hp].
Qed.

(** X4.  For a document that is not blank, the Segmenter returns at
    least one Segment, and no Segment it returns is empty or white space
    only. *)
Theorem segments_nonblank (content : text) :
  nonblank content = true ->
  split_content_by_topics content <> []
  /\ Forall (fun segment => nonblank segment = true)
            (split_content_by_topics content).
Proof.
  intros Hc; unfold split_content_by_topics, topic_parts.
  destruct (detect_topic_transitions content) as [|p l].
  - split; [discriminate | constructor; [exact Hc | constructor]].
  - split.
    + destruct (cut_parts_cover content (p :: l) 0) as [part [Hin Hp]];
        [lia | rewrite slice_from_0; exact Hc|].
      intros Hnil.
      assert (Hf : In part (filter nonblank (cut_parts content 0 (p :: l))))
        by (apply filter_In; split; assumption).
      rewrite Hnil in Hf; destruct Hf.
    + apply Forall_forall; intros x Hx.
      apply filter_In in Hx; tauto.
Qed.

Lemma slice_substring (s : text) (a b : Z) :
  exists pre post, s = pre ++ slice s a b ++ post.
Proof.
  unfold slice.
  set (k := Z.to_nat (adjust a (len s))).
  set (n := Z.to_nat (adjust b (len s) - adjust a (len s))).
  exists (firstn k s), (skipn n (skipn k s)).
  rewrite (firstn_skipn n (skipn k s)), firstn_skipn; reflexivity.
Qed.

Lemma cut_parts_substrings (content : text) (cuts : list Z) :
  forall start : Z,
    Forall (fun part => exists pre post, content = pre ++ part ++ post)
           (cut_parts content start cuts).
Proof.
  induction cuts as [|p rest IH]; intros start; cbn [cut_parts].
  - constructor; [|constructor].
    unfold slice_from.
    exists (firstn (Z.to_nat (adjust start (len content))) content), [].
    rewrite app_nil_r, firstn_skipn; reflexivity.
  - constructor; [apply slice_substring | apply IH].
Qed.

(** X5.  Every Segment is a contiguous piece of the document. *)
Theorem segments_are_substrings (content : text) :
  Forall (fun segment =>
            exists pre post, content = pre ++ segment ++ post)
         (split_content_by_topics content).
Proof.
  unfold split_content_by_topics, topic_parts.
  destruct (detect_topic_transitions content) as [|p l].
  - constructor; [|constructor].
    exists [], []; rewrite app_nil_r; reflexivity.
  - apply Forall_forall; intros x Hx.
    apply filter_In in Hx as [Hx _].
    pose proof (cut_parts_substrings content (p :: l) 0) as H.
    rewrite Forall_forall in H; exact (H x Hx).
Qed.

End WithUnicode.

Lemma segments_nonblank_witness :
  split_content_by_topics
    (str " " ++ turn_marker ++ str "moving on to x") <> [].
Proof.
  apply (segments_nonblank
           (str " " ++ turn_marker ++ str "moving on to x"));
    reflexivity.
Defined.

Lemma no_marker_single_segment_witness :
  split_content_by_topics (str "moving on to x") = [str "moving on to x"].
Proof.
  apply (no_marker_single_segment (str "moving on to x")); reflexivity.
Defined.


Lemma transitions_point_at_phrases_witness :
  Sorted Z.le
    (detect_topic_transitions
       (str "# T" ++ turn_marker ++ str "User**: hi" ++ turn_marker
          ++ str "ChatGPT**: Now let's switch to databases")).
Proof.
  apply (transitions_point_at_phrases
           (str "# T" ++ turn_marker ++ str "User**: hi" ++ turn_marker
              ++ str "ChatGPT**: Now let's switch to databases")).
  reflexivity.
Defined.

End SegmenterExtras.

(* ================================================================= *)
(** ** More on the Tagger *)

Module TaggerExtras.
Import Py Props PyFacts Organizer TaggerProofs Sample.

Lemma distinct_NoDup (l : list text) : distinct l = true -> NoDup l.
Proof.
  induction l as [|x l IH]; simpl; [constructor|].
  intros H; apply andb_true_iff in H as [Hx Hl].
  constructor; [apply mem_false, negb_true_iff, Hx | apply IH, Hl].
Qed.

(** Dropping topics from a lexicon keeps the topic names apart. *)
Lemma filtered_topics_distinct (keep : text * list text -> bool)
      (lexicon : list (text * list text)) :
  NoDup (map fst lexicon) -> NoDup (map fst (filter keep lexicon)).
Proof.
  intros Hnd; induction lexicon as [|kv rest IH]; [exact Hnd|].
  cbn [map filter] in *.
  apply NoDup_cons_iff in Hnd as [Hfresh Hrest].
  destruct (keep kv); [|exact (IH Hrest)].
  cbn [map]; apply NoDup_cons; [|exact (IH Hrest)].
  intros Hin; apply Hfresh.
  apply in_map_iff in Hin as [kv' [Hname Hin]].
  apply filter_In in Hin as [Hin _].
  apply in_map_iff; exists kv'; split; assumption.
Qed.

Section WithUnicode.
Context {U : Unicode}.

Lemma topic_score_le (content : text) (tokens keywords : list text) :
  (topic_score content tokens keywords <= List.length tokens)%nat.
Proof. unfold topic_score; apply filter_length_le. Qed.

Lemma topic_score_saturated (content : text) (tokens keywords : list text) :
  phrase_present content keywords = true ->
  topic_score content tokens keywords = List.length tokens.
Proof.
  intros H; unfold topic_score; rewrite H.
  f_equal. induction tokens as [|t l IH]; simpl; [reflexivity|].
  rewrite orb_true_r, IH; reflexivity.
Qed.

Context {N : Nltk}.

(** X6.  A text with fewer than two filtered tokens gets the sentinel tag
    alone: no topic can reach a score above 1. *)
Theorem few_tokens_sentinel_only (content : text) :
  (List.length (filtered_tokens (lower content)) < 2)%nat ->
  extract_tags_from_content content = [sentinel].
Proof.
  intros H; unfold extract_tags_from_content.
  rewrite tags_for_spec by apply distinct_topics.
  unfold sentinel; f_equal.
  induction TOPIC_KEYWORDS as [|kv l IH]; simpl; [reflexivity|].
  pose proof (topic_score_le (lower content)
                (filtered_tokens (lower content)) (snd kv)) as Hle.
  destruct (Nat.ltb_spec 1 (topic_score (lower content)
                              (filtered_tokens (lower content)) (snd kv)));
    [lia | exact IH].
Qed.

(** X7.  The TagSet never repeats a tag, every tag after the sentinel is a
    topic of the lexicon, and there are at most 18 tags. *)
Theorem tags_well_formed (content : text) :
  NoDup (extract_tags_from_content content)
  /\ Forall (fun tag => tag = sentinel \/ In tag (map fst TOPIC_KEYWORDS))
            (extract_tags_from_content content)
  /\ (List.length (extract_tags_from_content content) <= 18)%nat.
Proof.
  unfold extract_tags_from_content.
  rewrite tags_for_spec by apply distinct_topics.
  set (f := fun kv : text * list text =>
              Nat.ltb 1 (topic_score (lower content)
                           (filtered_tokens (lower content)) (snd kv))).
  assert (Hsub : forall tag, In tag (map fst (filter f TOPIC_KEYWORDS)) ->
                             In tag (map fst TOPIC_KEYWORDS)).
  { intros tag Hin; apply in_map_iff in Hin as [kv [<- Hin]].
    apply filter_In in Hin as [Hin _]; apply in_map; exact Hin. }
  repeat split.
  - constructor.
    + intros Hin; apply Hsub in Hin.
      apply mem_In in Hin; revert Hin; vm_compute; discriminate.
    + apply filtered_topics_distinct, distinct_NoDup, distinct_topics.
  - constructor; [left; reflexivity|].
    apply Forall_forall; intros tag Hin; right; apply Hsub, Hin.
  - cbn [List.length]; rewrite length_map.
    pose proof (filter_length_le f TOPIC_KEYWORDS) as Hle.
    assert (H17 : List.length TOPIC_KEYWORDS = 17%nat)
      by (vm_compute; reflexivity).
    lia.
Qed.

(** X8.  Once a multi-word phrase of a topic occurs in the lowercased text,
    every filtered token counts for that topic: with two filtered tokens
    or more the topic is among the tags. *)
Theorem phrase_saturates_topic (content topic : text)
        (keywords : list text) :
  In (topic, keywords) TOPIC_KEYWORDS ->
  phrase_present (lower content) keywords = true ->
  (2 <= List.length (filtered_tokens (lower content)))%nat ->
  In topic (extract_tags_from_content content).
Proof.
  intros Hin Hp Hlen; unfold extract_tags_from_content.
  rewrite tags_for_spec by apply distinct_topics.
  right; apply in_map_iff; exists (topic, keywords); split; [reflexivity|].
  apply filter_In; split; [exact Hin|].
  cbn [snd]; rewrite topic_score_saturated by exact Hp.
  apply Nat.ltb_lt; lia.
Qed.

End WithUnicode.

Lemma few_tokens_sentinel_only_witness :
  extract_tags_from_content (str "Python") = [sentinel].
Proof.
  apply (few_tokens_sentinel_only (U := sample_unicode) (N := sample_nltk) (str "Python")).
  vm_compute; lia.
Defined.

Lemma phrase_saturates_topic_witness :
  In (str "ai")
     (extract_tags_from_content
        (str "Machine learning needs clean inputs")).
Proof.
  apply (phrase_saturates_topic (U := sample_unicode)
           (N := sample_nltk)
           (str "Machine learning needs clean inputs") (str "ai")
           (map str ["ai"; "artificial intelligence"; "machine learning";
                     "ml"; "deep learning"; "llm"; "neural"]%string)).
  - vm_compute; tauto.
  - vm_compute; reflexivity.
  - vm_compute; lia.
Defined.

End TaggerExtras.

(* ================================================================= *)
(** ** Summaries and file names of the parts *)

Module SummaryProofs.
Import Py Props PyFacts Summaries Sample.

Lemma slice_to_len (s : text) (n : Z) :
  0 <= n -> len (slice_to s n) <= n.
Proof.
  intros Hn; unfold slice_to. pose proof (len_nonneg s).
  rewrite adjust_nonneg by lia.
  unfold len; rewrite length_firstn; lia.
Qed.

Lemma slice_to_all (s : text) (n : Z) :
  len s <= n -> slice_to s n = s.
Proof.
  intros Hn; unfold slice_to. pose proof (len_nonneg s).
  rewrite adjust_nonneg by lia.
  apply firstn_all2; unfold len in *; lia.
Qed.

Section WithUnicode.
Context {U : Unicode}.

Lemma truncate_len (s : text) (n : Z) :
  0 <= n -> len (truncate n s) <= n + 3.
Proof.
  intros Hn; unfold truncate; rewrite len_app.
  pose proof (slice_to_len s n Hn).
  destruct (n <? len s); [change (len (str "...")) with 3 |
                          change (len []) with 0]; lia.
Qed.

Lemma truncate_short (s : text) (n : Z) :
  len s <= n -> truncate n s = s.
Proof.
  intros Hn; unfold truncate.
  destruct (Z.ltb_spec n (len s)); [lia|].
  rewrite slice_to_all by exact Hn; apply app_nil_r.
Qed.

(** X9.  The summary is the fixed fallback, or at most [max_length]
    characters followed, when something was cut, by the three dots. *)
Theorem summary_bounded (content : text) (max_length : Z) :
  0 <= max_length ->
  generate_summary content max_length = default_summary
  \/ len (generate_summary content max_length) <= max_length + 3.
Proof.
  intros Hn; unfold generate_summary.
  destruct (search_query content) as [g|].
  - right; apply truncate_len; exact Hn.
  - destruct (strip (up_to_newline content)); [left; reflexivity|].
    right; apply truncate_len; exact Hn.
Qed.

Lemma span_app (p : char -> bool) (a b : text) :
  forallb p a = true ->
  match b with [] => True | x :: _ => p x = false end ->
  span p (a ++ b) = (a, b).
Proof.
  intros Ha Hb; induction a as [|c a IH]; simpl in *.
  - destruct b as [|x b]; simpl; [reflexivity | rewrite Hb; reflexivity].
  - apply andb_true_iff in Ha as [Hc Ha].
    rewrite Hc, (IH Ha); reflexivity.
Qed.

Lemma author_tag_no_star (c : char) (s : text) :
  not_star c = true -> author_tag (c :: s) = None.
Proof.
  unfold not_star; intros H; apply negb_true_iff in H.
  assert (E : starts_with (str "**") (c :: s) = false).
  { change (starts_with (str "**") (c :: s))
      with (N.eqb (ch "*") c && starts_with (str "*") s)%bool.
    rewrite N.eqb_sym, H; reflexivity. }
  unfold author_tag; rewrite E; reflexivity.
Qed.

Lemma search_skips_plain (pre s : text) :
  forallb not_star pre = true ->
  search_query (pre ++ s) = search_query s.
Proof.
  induction pre as [|c pre IH]; [reflexivity|].
  intros H; apply andb_true_iff in H as [Hc Hp].
  cbn [app search_query].
  rewrite (author_tag_no_star c _ Hc); apply IH, Hp.
Qed.

Lemma author_tag_match (name t : text) :
  name <> [] -> forallb not_star name = true ->
  author_tag (str "**" ++ name ++ str "**:" ++ t) = Some t.
Proof.
  intros Hne Hn; unfold author_tag.
  rewrite starts_with_app.
  change (skipn 2 (str "**" ++ name ++ str "**:" ++ t))
    with (name ++ str "**:" ++ t).
  rewrite span_app by (auto; reflexivity).
  destruct name; [congruence|].
  rewrite starts_with_app; reflexivity.
Qed.

Lemma has_newline_app (a b : text) :
  has_newline (a ++ b) = (has_newline a || has_newline b)%bool.
Proof. apply existsb_app. Qed.

Lemma up_to_newline_app (x rest : text) :
  has_newline x = false -> up_to_newline (x ++ nl :: rest) = x.
Proof.
  unfold has_newline.
  induction x as [|c x IH]; cbn [existsb app up_to_newline].
  - intros _; rewrite N.eqb_refl; reflexivity.
  - intros H; apply orb_false_iff in H as [Hc Hx].
    rewrite N.eqb_sym in Hc; rewrite Hc.
    f_equal; apply IH; exact Hx.
Qed.

Lemma search_query_here (s t g : text) :
  author_tag s = Some t -> query_group t = Some g ->
  search_query s = Some g.
Proof.
  intros Ha Hg; destruct s; cbn [search_query]; rewrite Ha, Hg;
    reflexivity.
Qed.

(** X10.  When the first pair of stars of the document opens an author tag
    [**name**:] and text follows on the same line, the summary is that
    text, trimmed and truncated. *)
Theorem first_turn_summary (pre name ws text rest : text) (c : char)
        (max_length : Z) :
  forallb not_star pre = true ->
  name <> [] -> forallb not_star name = true ->
  forallb is_space ws = true ->
  is_space c = false ->
  has_newline (c :: text) = false ->
  generate_summary
    (pre ++ str "**" ++ name ++ str "**:" ++ ws ++ (c :: text)
         ++ nl :: rest) max_length
  = truncate max_length (strip (c :: text)).
Proof.
  intros Hpre Hne Hname Hws Hc Hnl; unfold generate_summary.
  rewrite search_skips_plain by exact Hpre.
  rewrite (search_query_here _ (ws ++ (c :: text) ++ nl :: rest)
             (c :: text)); [reflexivity | |].
  - apply author_tag_match; assumption.
  - unfold query_group.
    rewrite span_app by (auto; exact Hc).
    rewrite has_newline_app; cbn [has_newline existsb].
    rewrite N.eqb_refl, orb_true_r.
    rewrite up_to_newline_app by exact Hnl; reflexivity.
Qed.

Lemma Forall_firstn {A : Type} (p : A -> Prop) (n : nat) (l : list A) :
  Forall p l -> Forall p (firstn n l).
Proof.
  revert n; induction l as [|x l IH]; intros [|n] H; simpl;
    try constructor; inversion H; subst; auto.
Qed.

(** X11.  The file name of a part is at most 240 characters long and holds
    none of the characters that the function removes, whatever the
    date string, the tags and the summary are. *)
Theorem new_filename_safe (date_str : text) (tags : list text)
        (summary : text) (i parts : nat) :
  len (new_filename date_str tags summary i parts) <= 240
  /\ Forall (fun c => forbidden c = false)
            (new_filename date_str tags summary i parts).
Proof.
  unfold new_filename; cbv zeta; split.
  - apply slice_to_len; lia.
  - unfold slice_to; apply Forall_firstn.
    apply Forall_forall; intros c Hc.
    apply filter_In in Hc as [_ Hc]; apply negb_true_iff, Hc.
Qed.

Lemma findall_runs_chars (s cur : text) :
  Forall (fun c => lower_alnum c = true) cur ->
  Forall (fun run => run <> []
                     /\ Forall (fun c => lower_alnum c = true) run)
         (findall_runs s cur).
Proof.
  revert cur; induction s as [|c s IH]; intros cur Hcur; simpl.
  - destruct cur as [|x cur]; constructor; [|constructor].
    split; [intros E; apply (f_equal (@rev char)) in E;
            rewrite rev_involutive in E; discriminate|].
    apply Forall_rev; exact Hcur.
  - destruct (lower_alnum c) eqn:Ec.
    + apply IH; constructor; assumption.
    + destruct cur as [|x cur]; [apply IH; constructor|].
      constructor; [|apply IH; constructor].
      split; [intros E; apply (f_equal (@rev char)) in E;
              rewrite rev_involutive in E; discriminate|].
      apply Forall_rev; exact Hcur.
Qed.

Lemma join_chars (p : char -> Prop) (sep : text) (l : list text) :
  Forall p sep -> Forall (Forall p) l -> Forall p (join sep l).
Proof.
  intros Hsep; induction l as [|x l IH]; intros H; [constructor|].
  inversion H as [|? ? Hx Hl]; subst.
  destruct l as [|y l]; [exact Hx|].
  rewrite join_cons by discriminate.
  apply Forall_app; split; [exact Hx|].
  apply Forall_app; split; [exact Hsep | apply IH, Hl].
Qed.

(** X12.  The slug of a summary is never empty and holds only lowercase
    letters, digits and hyphens. *)
Theorem summary_slug_chars (summary : text) :
  summary_slug summary <> []
  /\ Forall (fun c => lower_alnum c = true \/ c = ch "-")
            (summary_slug summary).
Proof.
  unfold summary_slug.
  pose proof (findall_runs_chars (lower summary) [] (Forall_nil _)) as Hr.
  apply (Forall_firstn _ 5) in Hr.
  assert (Hj : Forall (fun c => lower_alnum c = true \/ c = ch "-")
                 (join (str "-") (firstn 5 (findall_runs (lower summary) [])))).
  { apply join_chars.
    - constructor; [right; reflexivity | constructor].
    - eapply Forall_impl; [|exact Hr].
      intros run [_ Hrun]; eapply Forall_impl; [|exact Hrun].
      intros c Hc; left; exact Hc. }
  destruct (join (str "-") (firstn 5 (findall_runs (lower summary) []))).
  - split; [discriminate|].
    repeat (constructor; [first [left; reflexivity | right; reflexivity]|]).
    constructor.
  - split; [discriminate | exact Hj].
Qed.

End WithUnicode.

Lemma summary_bounded_witness :
  generate_summary (str "hello world this is") 5 = default_summary
  \/ len (generate_summary (str "hello world this is") 5) <= 5 + 3.
Proof.
  apply (summary_bounded (U := sample_unicode) (str "hello world this is") 5); lia.
Defined.

Lemma first_turn_summary_witness :
  generate_summary
    (str "# T" ++ [nl; nl] ++ str "**User**: Hello world" ++ [nl; nl]
       ++ str "**ChatGPT**: hi" ++ [nl]) 100
  = str "Hello world".
Proof.
  apply (first_turn_summary (U := sample_unicode) (str "# T" ++ [nl; nl]) (str "User")
           (str " ") (str "ello world")
           (nl :: str "**ChatGPT**: hi" ++ [nl]) (ch "H") 100);
    [reflexivity | discriminate | reflexivity | reflexivity | reflexivity
    | reflexivity].
Defined.

End SummaryProofs.

(* ================================================================= *)
(** ** More on the Extractor and the Renderer *)

Module ExtractorExtras.
Import Py Json Extractor Props PyFacts Sample ExtractorProofs.

Lemma lookup_set_same (k : text) (v : json) (items : list (text * json)) :
  lookup k (set_item k v items) = Some v.
Proof.
  induction items as [|[k' v'] items IH]; simpl.
  - rewrite text_eqb_refl; reflexivity.
  - destruct (text_eqb k k') eqn:E; simpl.
    + rewrite text_eqb_refl; reflexivity.
    + rewrite E; exact IH.
Qed.

Lemma lookup_set_other (k k0 : text) (v : json)
      (items : list (text * json)) :
  k0 <> k -> lookup k0 (set_item k v items) = lookup k0 items.
Proof.
  intros Hne; induction items as [|[k' v'] items IH]; simpl.
  - destruct (text_eqb k0 k) eqn:E; [|reflexivity].
    apply text_eqb_eq in E; congruence.
  - destruct (text_eqb k k') eqn:E; simpl.
    + apply text_eqb_eq in E; subst k'.
      destruct (text_eqb k0 k) eqn:E0; [|reflexivity].
      apply text_eqb_eq in E0; congruence.
    + rewrite IH; reflexivity.
Qed.

Section WithPlatform.
Context {U : Unicode} {P : Platform}.

(** The message that the loop appends for a node. *)
Lemma collect_messages_cons (k : text) (node : json)
      (rest : list (text * json)) :
  collect_messages ((k, node) :: rest)
  = collect_messages [(k, node)] ++ collect_messages rest.
Proof.
  unfold collect_messages; cbn [flat_map]; rewrite app_nil_r.
  reflexivity.
Qed.

(** X13.  Every message that [process_conversations] collects is a [dict]
    whose [author] is a [dict]: the lookup of the role further down
    never meets anything else. *)
Theorem collected_messages_have_author (mapping : list (text * json)) :
  Forall (fun m => exists items author,
                     m = JObj items
                     /\ lookup (str "author") items = Some (JObj author))
         (collect_messages mapping).
Proof.
  induction mapping as [|[k node] rest IH]; [constructor|].
  rewrite collect_messages_cons; apply Forall_app; split; [|exact IH].
  unfold collect_messages; cbn [flat_map snd]; rewrite app_nil_r.
  destruct node as [| | | | |item]; try constructor.
  destruct (lookup (str "message") item) as [[| | | | |message]|];
    try constructor.
  destruct (lookup (str "author") message) as [[| | | | |a]|] eqn:Ea;
    (constructor; [|constructor]);
    try (eexists _, _; split; [reflexivity | apply lookup_set_same]).
  exists message, a; split; [reflexivity | exact Ea].
Qed.

(** X14.  No [dict] message of the mapping is lost, and the loop touches its
    [author] field only: a message with a well-formed author is kept as
    it is, any other gets the author [{"role": "unknown"}] and keeps
    every other field. *)
Theorem collected_message_fields (mapping : list (text * json))
        (k : text) (item message : list (text * json)) :
  In (k, JObj item) mapping ->
  lookup (str "message") item = Some (JObj message) ->
  exists items,
    In (JObj items) (collect_messages mapping)
    /\ (forall key, key <> str "author" ->
                    lookup key items = lookup key message)
    /\ (forall a, lookup (str "author") message = Some (JObj a) ->
                  items = message)
    /\ ((forall a, lookup (str "author") message <> Some (JObj a)) ->
        lookup (str "author") items = Some unknown_author).
Proof.
  intros Hin Hm.
  induction mapping as [|[k' node] rest IH]; [destruct Hin|].
  rewrite collect_messages_cons.
  destruct Hin as [E|Hin].
  - injection E as -> ->.
    unfold collect_messages at 1; cbn [flat_map snd]; rewrite app_nil_r, Hm.
    destruct (lookup (str "author") message) as [[| | | | |a]|] eqn:Ea.
    6: { exists message; split; [left; reflexivity|].
         repeat split; auto.
         intros H; exfalso; apply (H a); reflexivity. }
    all: eexists; split; [left; reflexivity|];
      split; [intros key Hk; apply lookup_set_other; exact Hk|];
      split; [intros a; discriminate|];
      intros _; apply lookup_set_same.
  - destruct (IH Hin) as [items [Hi H]].
    exists items; split; [apply in_or_app; right; exact Hi | exact H].
Qed.

Lemma positive_number_pos (v : json) (x : number) :
  positive_number v = Some x -> is_positive x = true.
Proof.
  unfold positive_number.
  destruct (as_number v) as [x0|]; [|discriminate].
  destruct (is_positive x0) eqn:E; [|discriminate].
  intros [= <-]; exact E.
Qed.

Lemma alternative_time_source (fields : list text)
      (items : list (text * json)) (t : number) :
  alternative_time fields items = Ok (Some t) ->
  is_positive t = true
  \/ exists field s q,
       In field fields /\ lookup field items = Some (JStr s)
       /\ parse_date s = Parsed q /\ t = Finite q.
Proof.
  induction fields as [|f rest IH]; simpl; [discriminate|].
  assert (Hrest : alternative_time rest items = Ok (Some t) ->
                  is_positive t = true
                  \/ exists field s q,
                       (f = field \/ In field rest)
                       /\ lookup field items = Some (JStr s)
                       /\ parse_date s = Parsed q /\ t = Finite q).
  { intros H; destruct (IH H) as [Hp|[field [s [q [Hin Hs]]]]];
      [left; exact Hp | right; exists field, s, q; tauto]. }
  destruct (lookup f items) as [value|] eqn:El; [|exact Hrest].
  destruct (positive_number value) as [x|] eqn:Ep.
  - intros [= <-]; left; eapply positive_number_pos; exact Ep.
  - destruct value; try exact Hrest.
    destruct (parse_date s) as [q| |] eqn:Eq;
      [|exact Hrest|discriminate].
    intros [= <-]; right; exists f, s, q; tauto.
Qed.

(** X15.  A timestamp that [get_create_time_safely] returns is strictly
    positive, unless the date parser produced it from a string held by
    one of the alternative fields. *)
Theorem create_time_positive_or_parsed (message : json) (t : number) :
  get_create_time_safely message = Ok (Some t) ->
  is_positive t = true
  \/ exists items field s q,
       message = JObj items /\ In field time_fields
       /\ lookup field items = Some (JStr s)
       /\ parse_date s = Parsed q /\ t = Finite q.
Proof.
  unfold get_create_time_safely.
  destruct message as [| | | | |items]; try discriminate.
  assert (Halt : alternative_time time_fields items = Ok (Some t) ->
                 is_positive t = true
                 \/ exists items0 field s q,
                      JObj items = JObj items0 /\ In field time_fields
                      /\ lookup field items0 = Some (JStr s)
                      /\ parse_date s = Parsed q /\ t = Finite q).
  { intros H; destruct (alternative_time_source _ _ _ H)
      as [Hp|[field [s [q Hs]]]];
      [left; exact Hp | right; exists items, field, s, q; tauto]. }
  destruct (lookup (str "create_time") items) as [value|]; [|exact Halt].
  destruct (positive_number value) as [x|] eqn:Ep; [|exact Halt].
  intros [= <-]; left; eapply positive_number_pos; exact Ep.
Qed.

Lemma first_line_no_newline (s : text) : ~ In nl (first_line s).
Proof.
  induction s as [|c s IH]; simpl; [tauto|].
  destruct (N.eqb_spec c nl) as [->|Hne]; simpl; [tauto|].
  intros [E|H]; [congruence | exact (IH H)].
Qed.

Lemma In_firstn {A : Type} (x : A) (n : nat) (l : list A) :
  In x (firstn n l) -> In x l.
Proof.
  revert n; induction l as [|y l IH]; intros [|n]; simpl; try tauto.
  intros [E|H]; [left; exact E | right; exact (IH n H)].
Qed.

(** X16.  The title of a Conversation is the record's own title when
    that is a string with something other than white space in it;
    otherwise it is the fixed "Untitled Conversation", or the first 50
    characters of the first line of the content of the first message,
    when that content is a string and the piece is more than 3
    characters long. *)
Theorem title_shape (title first_message : json) (t : text) :
  _get_title title first_message = Ok t ->
  (title = JStr t /\ nonblank t = true)
  \/ t = untitled
  \/ (exists s, _get_message_content first_message = JStr s
                /\ t = firstn 50 (first_line s))
     /\ 3 < len t <= 50 /\ ~ In nl t.
Proof.
  unfold _get_title.
  assert (Hinf :
    (if (truthy first_message && is_dict first_message)%bool
     then
       if truthy (_get_message_content first_message)
       then
         match _get_message_content first_message with
         | JStr s =>
             Ok (if 3 <? len (firstn 50 (first_line s))
                 then firstn 50 (first_line s) else untitled)
         | _ => Raise
         end
       else Ok untitled
     else Ok untitled) = Ok t ->
    (title = JStr t /\ nonblank t = true)
    \/ t = untitled
    \/ (exists s, _get_message_content first_message = JStr s
                  /\ t = firstn 50 (first_line s))
       /\ 3 < len t <= 50 /\ ~ In nl t).
  { destruct (truthy first_message && is_dict first_message)%bool;
      [|intros [= <-]; right; left; reflexivity].
    destruct (truthy (_get_message_content first_message));
      [|intros [= <-]; right; left; reflexivity].
    destruct (_get_message_content first_message) as [| | |s| |];
      try discriminate.
    assert (Hlen : len (firstn 50 (first_line s)) <= 50)
      by (unfold len; rewrite length_firstn; lia).
    assert (Hnl : ~ In nl (firstn 50 (first_line s)))
      by (intros Hin; apply In_firstn in Hin;
          exact (first_line_no_newline s Hin)).
    assert (Hs : exists s0, JStr s = JStr s0
                            /\ firstn 50 (first_line s)
                               = firstn 50 (first_line s0))
      by (exists s; split; reflexivity).
    set (line := firstn 50 (first_line s)) in *; clearbody line.
    destruct (Z.ltb_spec 3 (len line)) as [Hlt|Hge];
      intros E; injection E as E; subst t; [|right; left; reflexivity].
    right; right; split; [exact Hs | tauto]. }
  destruct (truthy title); [|exact Hinf].
  destruct title as [| | |s| |]; try discriminate.
  destruct (nonblank s) eqn:Es; [|exact Hinf].
  intros [= <-]; left; split; [reflexivity | exact Es].
Qed.

Lemma In_lstrip (x : char) (s : text) : In x (lstrip s) -> In x s.
Proof.
  induction s as [|c s IH]; simpl; [tauto|].
  destruct (is_space c); [right; apply IH; assumption | tauto].
Qed.

Lemma In_rstrip (x : char) (s : text) : In x (rstrip s) -> In x s.
Proof.
  unfold rstrip; intros H.
  apply in_rev, In_lstrip in H; apply in_rev; exact H.
Qed.

(** X17.  The stem of a file name holds only characters that
    [str.isalnum] accepts, underscores and hyphens; the name is the stem
    with [.md], after the date and an underscore when there is a
    date. *)
Theorem file_name_chars (date_str inferred_title : text) :
  exists stem,
    Forall (fun c => name_char c = true) stem
    /\ file_name_of date_str inferred_title
       = match date_str with
         | [] => stem ++ str ".md"
         | _ :: _ => date_str ++ str "_" ++ stem ++ str ".md"
         end.
Proof.
  exists (underscores (sanitize inferred_title)); split.
  - unfold underscores; apply Forall_forall; intros c Hc.
    apply in_map_iff in Hc as [c0 [<- Hc0]].
    apply In_rstrip, filter_In in Hc0 as [_ Hk].
    unfold keeps_char in Hk; unfold name_char.
    destruct (N.eqb c0 (ch " ")) eqn:E.
    + apply orb_true_iff; left; apply orb_true_iff; right; reflexivity.
    + rewrite orb_false_r in Hk.
      apply orb_true_iff in Hk as [Hk|Hk];
        [apply orb_true_iff in Hk as [Hk|Hk]|].
      * rewrite Hk; reflexivity.
      * rewrite Hk, orb_true_r; reflexivity.
      * rewrite Hk, orb_true_r; reflexivity.
  - unfold file_name_of; destruct date_str; reflexivity.
Qed.

Lemma header_starts (cfg : config) (date_str inferred_title : text) :
  exists r, header_of cfg date_str inferred_title = str "# " ++ r.
Proof.
  unfold header_of; destruct date_str as [|a ds].
  - exists (inferred_title ++ message_separator cfg); reflexivity.
  - exists ((a :: ds) ++ str " " ++ inferred_title ++ message_separator cfg).
    reflexivity.
Qed.

Lemma finish_written (cfg : config) (title conversation_id : json)
      (conversation_time : json) (messages : list json) (f c : text) :
  finish_entry cfg title conversation_id conversation_time messages
  = Written f c ->
  (exists stem, f = stem ++ str ".md")
  /\ (exists rest, c = str "# " ++ rest)
  /\ 10 <= len (strip c).
Proof.
  unfold finish_entry.
  destruct (match messages with
            | m :: _ => get_create_time_safely m
            | [] => Ok None
            end) as [message_create_time|]; [|discriminate].
  destruct (choose_create_time _ _) as [create_time|]; [|discriminate].
  assert (Hcont : forall dt : option datetime,
    match _get_title title (hd JNull messages) with
    | Ok inferred_title =>
        match render cfg conversation_id dt
                match dt with
                | Some d => match strftime d (date_format cfg) with
                            | Some s => s
                            | None => []
                            end
                | None => []
                end inferred_title messages with
        | Ok content =>
            write_guard
              (file_name_of
                 match dt with
                 | Some d => match strftime d (date_format cfg) with
                             | Some s => s
                             | None => []
                             end
                 | None => []
                 end inferred_title) content
        | Raise => Skipped Raised
        end
    | Raise => Skipped Raised
    end = Written f c ->
    (exists stem, f = stem ++ str ".md")
    /\ (exists rest, c = str "# " ++ rest)
    /\ 10 <= len (strip c)).
  { intros dt.
    destruct (_get_title title (hd JNull messages)) as [t|];
      [|discriminate].
    set (ds := match dt with
               | Some d => match strftime d (date_format cfg) with
                           | Some s => s
                           | None => []
                           end
               | None => []
               end).
    destruct (render cfg conversation_id dt ds t messages) as [content|]
      eqn:Er; [|discriminate].
    pose proof (render_long _ _ _ _ _ _ _ Er) as Hlong.
    unfold write_guard.
    destruct (Z.ltb_spec (len (strip content)) 10); [discriminate|].
    intros [= <- <-]; repeat split; [| |exact Hlong].
    - unfold file_name_of; destruct ds as [|a ds'].
      + eexists; reflexivity.
      + exists ((a :: ds') ++ str "_" ++ underscores (sanitize t)).
        rewrite <- !app_assoc; reflexivity.
    - unfold render in Er.
      destruct (match dt with
                | Some d =>
                    match strftime d (str "%Y-%m-%d %H:%M:%S") with
                    | Some formatted_date =>
                        Ok (str "<sub>Creation time: " ++ formatted_date
                              ++ str "</sub>" ++ message_separator cfg)
                    | None => Raise
                    end
                | None => Ok []
                end) as [creation|]; cbv beta iota zeta delta [bind] in Er;
        [|discriminate].
      injection Er as <-.
      destruct (header_starts cfg ds t) as [r ->].
      eexists; rewrite <- app_assoc; reflexivity. }
  destruct (usable_time create_time) as [t|]; [|apply (Hcont None)].
  destruct (fromtimestamp t) as [d|]; [|discriminate].
  destruct (year d <? filter_before_year cfg); [discriminate|].
  apply (Hcont (Some d)).
Qed.

(** X18.  A file is written only for a record that is a [dict] whose
    [mapping] is a [dict] with at least one [dict] message; its name
    ends in [.md], and its content opens with the title marker and is
    at least 10 characters long once trimmed. *)
Theorem written_file_shape (cfg : config) (entry : json) (f c : text) :
  process_entry cfg entry = Written f c ->
  (exists items m,
     entry = JObj items
     /\ get_default (str "mapping") items (JObj []) = JObj m
     /\ collect_messages m <> [])
  /\ (exists stem, f = stem ++ str ".md")
  /\ (exists rest, c = str "# " ++ rest)
  /\ 10 <= len (strip c).
Proof.
  unfold process_entry.
  destruct entry as [| | | | |items]; try discriminate.
  destruct (conversation_create_time items) as [ct|]; [|discriminate].
  cbv zeta.
  assert (Hrest :
    (if truthy (get_default (str "mapping") items (JObj []))
     then
       match get_default (str "mapping") items (JObj []) with
       | JObj m =>
           match collect_messages m with
           | [] => Skipped NoMessages
           | j :: l =>
               match sort_messages (j :: l) with
               | Ok sorted =>
                   finish_entry cfg (get_default (str "title") items (JStr []))
                     (get_default (str "id") items (JStr (str "unknown")))
                     ct sorted
               | Raise => Skipped Raised
               end
           end
       | _ => Skipped Raised
       end
     else Skipped NoMapping) = Written f c ->
    (exists items0 m,
       JObj items = JObj items0
       /\ get_default (str "mapping") items0 (JObj []) = JObj m
       /\ collect_messages m <> [])
    /\ (exists stem, f = stem ++ str ".md")
    /\ (exists rest, c = str "# " ++ rest)
    /\ 10 <= len (strip c)).
  { destruct (truthy (get_default (str "mapping") items (JObj [])));
      [|discriminate].
    destruct (get_default (str "mapping") items (JObj []))
      as [| | | | |m] eqn:Em; try discriminate.
    destruct (collect_messages m) as [|j l] eqn:Ec; [discriminate|].
    destruct (sort_messages (j :: l)) as [sorted|]; [|discriminate].
    intros H; apply finish_written in H.
    split; [|exact H].
    exists items, m; repeat split; [exact Em | rewrite Ec; discriminate]. }
  destruct (valid_time ct) as [t|]; [|exact Hrest].
  destruct (fromtimestamp t) as [d|]; [|discriminate].
  destruct (year d <? filter_before_year cfg); [discriminate|].
  exact Hrest.
Qed.

Lemma batch_counts_from (cfg : config) (data : list json) :
  forall p0 s0 p s : nat,
    fold_left (fun counts entry =>
                 match process_entry cfg entry with
                 | Written _ _ => (S (fst counts), snd counts)
                 | Skipped TooOld => counts
                 | Skipped _ => (fst counts, S (snd counts))
                 end) data (p0, s0) = (p, s) ->
    p = (p0 + List.length (written_files cfg data))%nat
    /\ (p + s + List.length (too_old cfg data)
        = p0 + s0 + List.length data)%nat.
Proof.
  induction data as [|entry rest IH]; intros p0 s0 p s.
  - simpl; intros [= <- <-]; lia.
  - cbn [fold_left]; unfold written_files, too_old.
    cbn [flat_map filter fst snd].
    fold (written_files cfg rest); fold (too_old cfg rest).
    destruct (process_entry cfg entry) as [f c|[]]; intros H;
      apply IH in H; cbn [List.length app] in *; lia.
Qed.

(** X19.  Of the pair that [process_conversations] returns, the first number
    counts the files written; together with the second and with the
    records skipped as too old, which neither number counts, it adds up
    to the number of records. *)
Theorem batch_counts (cfg : config) (data : list json) :
  fst (process_conversations cfg data)
  = List.length (written_files cfg data)
  /\ (fst (process_conversations cfg data)
      + snd (process_conversations cfg data)
      + List.length (too_old cfg data)
      = List.length data)%nat.
Proof.
  unfold process_conversations.
  destruct (fold_left _ data (0%nat, 0%nat)) as [p s] eqn:E.
  apply batch_counts_from in E; cbn [fst snd]; lia.
Qed.

Lemma message_lines_with_filter (cfg : config) (y : Z)
      (messages : list json) :
  message_lines (with_filter cfg y) messages = message_lines cfg messages.
Proof.
  induction messages as [|m rest IH]; [reflexivity|].
  cbn [message_lines]; rewrite IH; reflexivity.
Qed.

Lemma render_with_filter (cfg : config) (y : Z) (conversation_id : json)
      (dt : option datetime) (date_str inferred_title : text)
      (messages : list json) :
  render (with_filter cfg y) conversation_id dt date_str inferred_title
         messages
  = render cfg conversation_id dt date_str inferred_title messages.
Proof.
  unfold render; rewrite message_lines_with_filter; reflexivity.
Qed.

Lemma finish_with_filter (cfg : config) (y : Z)
      (title conversation_id conversation_time : json)
      (messages : list json) (f c : text) :
  finish_entry cfg title conversation_id conversation_time messages
  = Written f c ->
  (finish_entry (with_filter cfg y) title conversation_id
                conversation_time messages = Written f c
   \/ finish_entry (with_filter cfg y) title conversation_id
                   conversation_time messages = Skipped TooOld)
  /\ (y <= filter_before_year cfg ->
      finish_entry (with_filter cfg y) title conversation_id
                   conversation_time messages = Written f c).
Proof.
  unfold finish_entry.
  destruct (match messages with
            | m :: _ => get_create_time_safely m
            | [] => Ok None
            end) as [message_create_time|]; [|discriminate].
  destruct (choose_create_time _ _) as [create_time|]; [|discriminate].
  cbn [with_filter date_format filter_before_year].
  destruct (usable_time create_time) as [t|].
  - destruct (fromtimestamp t) as [d|]; [|discriminate].
    destruct (Z.ltb_spec (year d) (filter_before_year cfg));
      [discriminate|].
    destruct (_get_title title (hd JNull messages)) as [it|];
      [|discriminate].
    rewrite render_with_filter; intros Hw.
    destruct (Z.ltb_spec (year d) y); split; auto; lia.
  - destruct (_get_title title (hd JNull messages)) as [it|];
      [|discriminate].
    rewrite render_with_filter; tauto.
Qed.

(** X20.  The cutoff year only filters.  A record that is written under one
    cutoff gives, under any other, either the same file with the same
    content or a skip as too old; under a cutoff that is not later it
    gives the same file. *)
Theorem cutoff_only_filters (cfg : config) (y : Z) (entry : json)
        (f c : text) :
  process_entry cfg entry = Written f c ->
  (process_entry (with_filter cfg y) entry = Written f c
   \/ process_entry (with_filter cfg y) entry = Skipped TooOld)
  /\ (y <= filter_before_year cfg ->
      process_entry (with_filter cfg y) entry = Written f c).
Proof.
  unfold process_entry.
  destruct entry as [| | | | |items]; try discriminate.
  destruct (conversation_create_time items) as [ct|]; [|discriminate].
  cbv zeta; cbn [with_filter filter_before_year].
  assert (Hrest :
    forall o o' : outcome,
      o = (if truthy (get_default (str "mapping") items (JObj []))
           then
             match get_default (str "mapping") items (JObj []) with
             | JObj m =>
                 match collect_messages m with
                 | [] => Skipped NoMessages
                 | j :: l =>
                     match sort_messages (j :: l) with
                     | Ok sorted =>
                         finish_entry cfg
                           (get_default (str "title") items (JStr []))
                           (get_default (str "id") items
                              (JStr (str "unknown")))
                           ct sorted
                     | Raise => Skipped Raised
                     end
                 end
             | _ => Skipped Raised
             end
           else Skipped NoMapping) ->
      o' = (if truthy (get_default (str "mapping") items (JObj []))
            then
              match get_default (str "mapping") items (JObj []) with
              | JObj m =>
                  match collect_messages m with
                  | [] => Skipped NoMessages
                  | j :: l =>
                      match sort_messages (j :: l) with
                      | Ok sorted =>
                          finish_entry (with_filter cfg y)
                            (get_default (str "title") items (JStr []))
                            (get_default (str "id") items
                               (JStr (str "unknown")))
                            ct sorted
                      | Raise => Skipped Raised
                      end
                  end
              | _ => Skipped Raised
              end
            else Skipped NoMapping) ->
      o = Written f c ->
      (o' = Written f c \/ o' = Skipped TooOld)
      /\ (y <= filter_before_year cfg -> o' = Written f c)).
  { intros o o' -> ->.
    destruct (truthy (get_default (str "mapping") items (JObj [])));
      [|discriminate].
    destruct (get_default (str "mapping") items (JObj []))
      as [| | | | |m]; try discriminate.
    destruct (collect_messages m) as [|j l]; [discriminate|].
    destruct (sort_messages (j :: l)) as [sorted|]; [|discriminate].
    apply finish_with_filter. }
  destruct (valid_time ct) as [t|].
  - destruct (fromtimestamp t) as [d|]; [|discriminate].
    destruct (Z.ltb_spec (year d) (filter_before_year cfg));
      [discriminate|].
    intros Hw.
    destruct (Z.ltb_spec (year d) y).
    + split; [right; reflexivity | lia].
    + eapply Hrest; [reflexivity | reflexivity | exact Hw].
  - intros H; eapply Hrest; [reflexivity | reflexivity | exact H].
Qed.

(** X21.  The flattened content is a string, except when the content is
    a [dict] without [parts] and the result is its [text] field, or,
    without that, its [result] field, or, without either and with the
    content type [user_editable_context], its [user_profile] field,
    handed back as it is. *)
Theorem flattening_gives_string (message : json) :
  is_string (_get_message_content message) = true
  \/ exists items c,
       message = JObj items
       /\ lookup (str "content") items = Some (JObj c)
       /\ lookup (str "parts") c = None
       /\ (lookup (str "text") c = Some (_get_message_content message)
           \/ (lookup (str "text") c = None
               /\ lookup (str "result") c
                  = Some (_get_message_content message))
           \/ (lookup (str "text") c = None
               /\ lookup (str "result") c = None
               /\ lookup (str "content_type") c
                  = Some (JStr (str "user_editable_context"))
               /\ lookup (str "user_profile") c
                  = Some (_get_message_content message))).
Proof.
  unfold _get_message_content, message_content_body.
  destruct message as [| | | | |items]; try (left; reflexivity).
  destruct items as [|kv items']; [left; reflexivity|].
  destruct (lookup (str "content") (kv :: items')) as [content|] eqn:Ec;
    [|left; reflexivity].
  destruct content as [| | | | |c]; try (left; reflexivity).
  unfold dict_content.
  destruct (lookup (str "parts") c) as [parts|] eqn:Ep.
  { left; destruct (iterate parts) as [ps|]; [|reflexivity].
    cbv beta iota zeta delta [bind].
    destruct (all_strings (map part_text (filter truthy ps)));
      reflexivity. }
  destruct (lookup (str "text") c) as [v|] eqn:Et.
  { right; exists (kv :: items'), c.
    split; [reflexivity|]. split; [exact Ec|]. split; [exact Ep|].
    left; exact Et. }
  destruct (lookup (str "result") c) as [v|] eqn:Er.
  { right; exists (kv :: items'), c.
    split; [reflexivity|]. split; [exact Ec|]. split; [exact Ep|].
    right; left; split; [exact Et | exact Er]. }
  destruct (lookup (str "content_type") c) as [ct|] eqn:Ect.
  - destruct ct as [| | |s| |]; try (left; reflexivity).
    destruct (text_eqb s (str "user_editable_context")) eqn:Es;
      [|left; reflexivity].
    apply text_eqb_eq in Es; subst s.
    unfold get_default.
    destruct (lookup (str "user_profile") c) as [v|] eqn:Eu;
      [|left; reflexivity].
    right; exists (kv :: items'), c.
    split; [reflexivity|]. split; [exact Ec|]. split; [exact Ep|].
    right; right; repeat split; assumption.
  - left.
    destruct (flat_map _ c); reflexivity.
Qed.

(** X22.  Every message that [extract_messages_safely] returns is truthy:
    null, empty and zero entries are dropped from either shape. *)
Theorem extracted_messages_truthy (entry : json) (l : list json) :
  extract_messages_safely entry = Ok l ->
  Forall (fun m => truthy m = true) l.
Proof.
  unfold extract_messages_safely.
  destruct entry as [| | | | |items]; try (intros [= <-]; constructor).
  destruct (lookup (str "mapping") items) as [mapping|].
  - destruct (truthy mapping); [|intros [= <-]; constructor].
    destruct mapping as [| | | | |m]; try discriminate.
    intros [= <-]; unfold mapping_messages.
    apply Forall_forall; intros x Hx.
    apply in_flat_map in Hx as [[k node] [_ Hx]]; cbn [snd] in Hx.
    destruct node as [| | | | |item]; try destruct Hx.
    destruct (lookup (str "message") item) as [message|];
      [|destruct Hx].
    destruct (truthy message) eqn:Et; [|destruct Hx].
    destruct Hx as [<-|[]]; exact Et.
  - destruct (lookup (str "messages") items) as [messages|];
      [|intros [= <-]; constructor].
    destruct (iterate messages) as [ms|]; [|discriminate].
    cbn [bind]; intros [= <-].
    apply Forall_forall; intros x Hx; apply filter_In in Hx; tauto.
Qed.

(** X23.  A [mapping] key takes precedence even when its value is empty or
    null: the record then yields no message, whatever its [messages]
    list holds. *)
Theorem empty_mapping_hides_messages (items : list (text * json))
        (mapping : json) :
  lookup (str "mapping") items = Some mapping ->
  truthy mapping = false ->
  extract_messages_safely (JObj items) = Ok []
  /\ forall cfg, process_entry cfg (JObj items) <> Skipped NoMessages
                 /\ forall f c, process_entry cfg (JObj items)
                                <> Written f c.
Proof.
  intros Hm Ht; split.
  - unfold extract_messages_safely; rewrite Hm, Ht; reflexivity.
  - intros cfg; unfold process_entry, get_default; rewrite Hm, Ht.
    destruct (conversation_create_time items) as [ct|];
      [|split; [|intros f c]; discriminate].
    destruct (valid_time ct) as [t|].
    + destruct (fromtimestamp t) as [d|];
        [|split; [|intros f c]; discriminate].
      destruct (year d <? filter_before_year cfg);
        split; try intros f c; discriminate.
    + split; [|intros f c]; discriminate.
Qed.

End WithPlatform.

Lemma collected_message_fields_witness :
  exists items,
    In (JObj items) (collect_messages stray_message_mapping)
    /\ lookup (str "content") items = Some (jstr "Hello world").
Proof.
  destruct (collected_message_fields stray_message_mapping (str "a")
              [(str "message",
                obj [("author", user_author);
                     ("content", jstr "Hello world")]%string)]
              [(str "author", user_author);
               (str "content", jstr "Hello world")])
    as [items [Hin [Hkeep _]]].
  - left; reflexivity.
  - reflexivity.
  - exists items; split; [exact Hin|].
    rewrite Hkeep by discriminate; reflexivity.
Defined.

Lemma create_time_positive_or_parsed_witness :
  is_positive (Finite (inject_Z 3)) = true
  \/ exists items field s q,
       turn_earlier = JObj items /\ In field time_fields
       /\ lookup field items = Some (JStr s)
       /\ parse_date s = Parsed q /\ Finite (inject_Z 3) = Finite q.
Proof.
  apply (create_time_positive_or_parsed (P := sample_platform)
           turn_earlier (Finite (inject_Z 3))).
  reflexivity.
Defined.

Lemma title_shape_witness :
  (JNull = JStr (str "Hello world") /\ nonblank (str "Hello world") = true)
  \/ str "Hello world" = untitled
  \/ (exists s, _get_message_content turn_greeting = JStr s
                /\ str "Hello world" = firstn 50 (first_line s))
     /\ 3 < len (str "Hello world") <= 50 /\ ~ In nl (str "Hello world").
Proof.
  apply (title_shape (U := sample_unicode) (P := sample_platform)
           JNull turn_greeting (str "Hello world")).
  reflexivity.
Defined.

Lemma written_file_shape_witness :
  exists stem, str "Notes.md" = stem ++ str ".md".
Proof.
  destruct (written_file_shape (U := sample_unicode)
              (P := sample_platform) default_config
              (JObj undated_record) (str "Notes.md")
              (str "# Notes" ++ [nl; nl]
                 ++ str "<sub>Conversation ID: c2</sub>" ++ [nl; nl]
                 ++ str "**User**: Hello world" ++ [nl; nl]))
    as [_ [Hstem _]]; [reflexivity | exact Hstem].
Defined.

Lemma cutoff_only_filters_witness :
  process_entry (with_filter default_config 1990) (JObj undated_record)
  = Written (str "Notes.md")
      (str "# Notes" ++ [nl; nl]
         ++ str "<sub>Conversation ID: c2</sub>" ++ [nl; nl]
         ++ str "**User**: Hello world" ++ [nl; nl]).
Proof.
  apply (cutoff_only_filters (U := sample_unicode)
           (P := sample_platform) default_config 1990
           (JObj undated_record));
    [reflexivity | vm_compute; discriminate].
Defined.

Lemma extracted_messages_truthy_witness :
  Forall (fun m => truthy m = true)
         [obj [("author", user_author);
               ("content", jstr "Hello world")]%string].
Proof.
  apply (extracted_messages_truthy flat_record).
  reflexivity.
Defined.

Lemma empty_mapping_hides_messages_witness :
  extract_messages_safely
    (obj [("mapping", JObj []);
          ("messages", JArr [obj [("content", jstr "Hello world")]])]%string)
  = Ok [].
Proof.
  apply (empty_mapping_hides_messages (U := sample_unicode)
           (P := sample_platform)
           (map (fun kv => (str (fst kv), snd kv))
                [("mapping", JObj []);
                 ("messages",
                  JArr [obj [("content", jstr "Hello world")]])]%string)
           (JObj []));
    reflexivity.
Defined.

End ExtractorExtras.

(* ================================================================= *)
(** ** More on the order of the Turns *)

Module SortExtras.
Import Py Json Extractor Props PyFacts Sample SortProofs.

Section WithPlatform.
Context {U : Unicode} {P : Platform}.


(** X25.  The sort never raises when the [create_time] of every message
    is absent, null or a number other than NaN: it returns the stable
    sort. *)
Theorem numeric_times_sort (messages : list json) :
  Forall (fun m => exists items,
                     m = JObj items
                     /\ match lookup (str "create_time") items with
                        | None => True
                        | Some v =>
                            v = JNull
                            \/ exists x, as_number v = Some x /\ x <> NaN
                        end) messages ->
  sort_messages messages = Ok (stable_sort messages).
Proof.
  intros H; apply comparable_sort; left.
  eapply Forall_impl; [|exact H].
  intros m [items [-> Hm]]; exists items; split; [reflexivity|].
  destruct (lookup (str "create_time") items) as [v|]; [|exact I].
  destruct Hm as [->|Hx]; [left; reflexivity | right; exact Hx].
Qed.

End WithPlatform.


Lemma numeric_times_sort_witness :
  sort_messages [turn_earlier; turn_later]
  = Ok (stable_sort [turn_earlier; turn_later]).
Proof.
  apply (numeric_times_sort [turn_earlier; turn_later]).
  repeat constructor.
  - eexists; split; [reflexivity|].
    right; eexists; split; [reflexivity | discriminate].
  - eexists; split; [reflexivity|]. exact I.
Defined.

End SortExtras.
